(** * The overview page of the CP-SAT log analyzer ([_app/overview.py])

    A shallow embedding of the functions of [overview.py]: the metric
    gadgets, the search plot and [show_overview], which drives them and
    turns a [KeyError] into an error box.

    Streamlit calls are effects. They are modelled as a trace of UI calls
    in the order the script issues them; Python exceptions are modelled by
    an error result that stops the rest of a function body, exactly like a
    raised exception does. *)

From Stdlib Require Import ZArith Ascii String DecimalString.
From stdpp Require Import base option list strings gmap.

Local Open Scope Z_scope.

(** ** Python values that reach the page *)

Module Py.

(** A Python [float]: a finite binary number [±m·2^e], an infinity or a NaN.
    The sign is kept apart so that [-0.0] exists. *)
Inductive float : Type :=
  | Fin (neg : bool) (m : N) (e : Z)
  | Inf (neg : bool)
  | NaN.

Global Instance float_eq_dec : EqDecision float.
Proof. solve_decision. Defined.

(** What the page hands to a widget as [value=...]. *)
Inductive value : Type :=
  | VNone
  | VStr (s : string)
  | VInt (z : Z)
  | VFloat (f : float).

Global Instance value_eq_dec : EqDecision value.
Proof. solve_decision. Defined.

(** The two exceptions [overview.py] names; every other failure is outside
    the file. [KeyError] carries the missing key, [ValueError] the text that
    [float] rejected. *)
Inductive exn : Type :=
  | KeyError (key : string)
  | ValueError (arg : string).

Global Instance exn_eq_dec : EqDecision exn.
Proof. solve_decision. Defined.

(** *** Rounding to binary64 *)

(** [n/d] rounded to an integer, ties to even ([0 <= n], [0 < d]). *)
Definition round_half_even (n d : Z) : Z :=
  let q := n / d in
  match (2 * (n mod d)) ?= d with
  | Lt => q
  | Gt => q + 1
  | Eq => if Z.even q then q else q + 1
  end.

(** The magnitude [n/d] as the nearest binary64, or [None] on overflow:
    53 bits of mantissa, exponents from -1074 (subnormals) to 971. *)
Definition binary64_of_ratio (n d : Z) : option (Z * Z) :=
  if n =? 0 then Some (0, 0)
  else
    let fl0 := Z.log2 n - Z.log2 d in
    let above :=
      if 0 <=? fl0 then d * 2 ^ fl0 <=? n else d <=? n * 2 ^ (- fl0) in
    let fl := if above then fl0 else fl0 - 1 in
    let e := Z.max (fl - 52) (-1074) in
    let m :=
      if 0 <=? e then round_half_even n (d * 2 ^ e)
      else round_half_even (n * 2 ^ (- e)) d in
    if (971 <? e) || ((e =? 971) && (m =? 2 ^ 53)) then None
    else Some (m, e).

(** The float nearest to [±mant·10^ex]. *)
Definition float_of_decimal (neg : bool) (mant ex : Z) : float :=
  let r :=
    if 0 <=? ex then binary64_of_ratio (mant * 10 ^ ex) 1
    else binary64_of_ratio mant (10 ^ (- ex)) in
  match r with
  | Some (m, e) => Fin neg (Z.to_N m) e
  | None => Inf neg
  end.

(** *** [float(s)] on a string *)

Definition is_digit (c : ascii) : bool :=
  let n := nat_of_ascii c in (48 <=? n)%nat && (n <=? 57)%nat.

Definition digit_val (c : ascii) : Z := Z.of_nat (nat_of_ascii c) - 48.

(** The characters [float] strips at both ends ([Py_ISSPACE]): tab to
    carriage return, and the blank. The separators 0x1c to 0x1f are blanks
    for [str.isspace] but not here. *)
Definition is_space (c : ascii) : bool :=
  let n := nat_of_ascii c in
  ((9 <=? n)%nat && (n <=? 13)%nat) || (n =? 32)%nat.

Fixpoint lstrip (s : list ascii) : list ascii :=
  match s with
  | c :: s' => if is_space c then lstrip s' else s
  | [] => []
  end.

Definition strip (s : list ascii) : list ascii :=
  reverse (lstrip (reverse (lstrip s))).

Definition lower (c : ascii) : ascii :=
  let n := nat_of_ascii c in
  if (65 <=? n)%nat && (n <=? 90)%nat then ascii_of_nat (n + 32) else c.

(** The digits that continue a digit part: [digit] or [_ digit], repeated. *)
Fixpoint read_digits (s : list ascii) : list Z * list ascii :=
  match s with
  | c :: s' =>
      if is_digit c then
        let '(ds, r) := read_digits s' in (digit_val c :: ds, r)
      else if bool_decide (c = "_"%char) then
        match s' with
        | d :: s'' =>
            if is_digit d then
              let '(ds, r) := read_digits s'' in (digit_val d :: ds, r)
            else ([], s)
        | [] => ([], s)
        end
      else ([], s)
  | [] => ([], [])
  end.

(** [digitpart ::= digit (["_"] digit)*]; [None] when [s] starts with no
    digit. *)
Definition digitpart (s : list ascii) : option (list Z * list ascii) :=
  match s with
  | c :: s' =>
      if is_digit c then
        let '(ds, r) := read_digits s' in Some (digit_val c :: ds, r)
      else None
  | [] => None
  end.

Definition digits_value (ds : list Z) : Z :=
  foldl (fun acc d => 10 * acc + d) 0 ds.

Definition read_sign (s : list ascii) : bool * list ascii :=
  match s with
  | c :: s' =>
      if bool_decide (c = "-"%char) then (true, s')
      else if bool_decide (c = "+"%char) then (false, s')
      else (false, s)
  | [] => (false, [])
  end.

(** [number ::= [digitpart] "." digitpart | digitpart ["."]]: the integer
    digits, the fraction digits and what follows. *)
Definition read_number (s : list ascii)
    : option (list Z * list Z * list ascii) :=
  match digitpart s with
  | Some (ip, r) =>
      match r with
      | c :: r' =>
          if bool_decide (c = "."%char) then
            match digitpart r' with
            | Some (fp, r'') => Some (ip, fp, r'')
            | None => Some (ip, [], r')
            end
          else Some (ip, [], r)
      | [] => Some (ip, [], [])
      end
  | None =>
      match s with
      | c :: r' =>
          if bool_decide (c = "."%char) then
            match digitpart r' with
            | Some (fp, r'') => Some ([], fp, r'')
            | None => None
            end
          else None
      | [] => None
      end
  end.

(** [exponent ::= ("e" | "E") [sign] digitpart], to the end of the text;
    no exponent at all is exponent zero. *)
Definition read_exponent (s : list ascii) : option Z :=
  match s with
  | [] => Some 0
  | c :: s' =>
      if bool_decide (lower c = "e"%char) then
        let '(neg, r) := read_sign s' in
        match digitpart r with
        | Some (ds, []) =>
            Some (if neg then - digits_value ds else digits_value ds)
        | _ => None
        end
      else None
  end.

(** *** The text of a [str], as [float] reads it

    A text is held as its UTF-8 bytes. [float] first rewrites a text that is
    not plain ASCII ([_PyUnicode_TransformDecimalAndSpaceToASCII]): a
    character below 127 stays, a Unicode blank becomes a blank, a Unicode
    decimal digit becomes its ASCII digit, and any other character makes the
    text no number. *)

Definition is_continuation (c : ascii) : bool :=
  let n := nat_of_ascii c in (128 <=? n)%nat && (n <? 192)%nat.

Definition low_bits (c : ascii) : N := N.of_nat (nat_of_ascii c) - 128.

(** The code points of a UTF-8 text; [None] for bytes that are no UTF-8
    (overlong forms and surrogates included). *)
Fixpoint utf8_decode (s : list ascii) : option (list N) :=
  match s with
  | [] => Some []
  | b0 :: r =>
      let n0 := N.of_nat (nat_of_ascii b0) in
      if (n0 <? 128)%N then cons n0 <$> utf8_decode r
      else if (n0 <? 194)%N then None
      else if (n0 <? 224)%N then
        match r with
        | b1 :: r1 =>
            if is_continuation b1 then
              cons ((n0 - 192) * 64 + low_bits b1)%N <$> utf8_decode r1
            else None
        | _ => None
        end
      else if (n0 <? 240)%N then
        match r with
        | b1 :: b2 :: r2 =>
            let cp := ((n0 - 224) * 4096 + low_bits b1 * 64 + low_bits b2)%N in
            if is_continuation b1 && is_continuation b2 &&
               (2048 <=? cp)%N && negb ((55296 <=? cp)%N && (cp <=? 57343)%N)
            then cons cp <$> utf8_decode r2
            else None
        | _ => None
        end
      else if (n0 <? 245)%N then
        match r with
        | b1 :: b2 :: b3 :: r3 =>
            let cp := ((n0 - 240) * 262144 + low_bits b1 * 4096 +
                       low_bits b2 * 64 + low_bits b3)%N in
            if is_continuation b1 && is_continuation b2 &&
               is_continuation b3 && (65536 <=? cp)%N && (cp <=? 1114111)%N
            then cons cp <$> utf8_decode r3
            else None
        | _ => None
        end
      else None
  end.

(** The blanks of [str.isspace] from 127 on (Unicode 14.0, as in
    CPython 3.11). *)
Definition unicode_blanks : list N :=
  [133; 160; 5760; 8192; 8193; 8194; 8195; 8196; 8197; 8198; 8199; 8200;
   8201; 8202; 8232; 8233; 8239; 8287; 12288]%N.

(** The digit zero of every run of decimal digits from 127 on (general
    category Nd of Unicode 14.0, as in CPython 3.11); the nine code points
    after a zero are the digits one to nine. *)
Definition decimal_zeros : list N :=
  [1632; 1776; 1984; 2406; 2534; 2662; 2790; 2918; 3046; 3174; 3302; 3430;
   3558; 3664; 3792; 3872; 4160; 4240; 6112; 6160; 6470; 6608; 6784; 6800;
   6992; 7088; 7232; 7248; 42528; 43216; 43264; 43472; 43504; 43600; 44016;
   65296; 66720; 68912; 69734; 69872; 69942; 70096; 70384; 70736; 70864;
   71248; 71360; 71472; 71904; 72016; 72784; 73040; 73120; 92768; 92864;
   93008; 120782; 120792; 120802; 120812; 120822; 123200; 123632; 125264;
   130032]%N.

Definition decimal_digit (cp : N) : option N :=
  (fun z => (cp - z)%N) <$>
  head (filter (fun z => (z <= cp)%N ∧ (cp <= z + 9)%N) decimal_zeros).

(** One character of the text, rewritten to ASCII. *)
Definition to_ascii (cp : N) : option ascii :=
  if (cp <? 127)%N then Some (ascii_of_N cp)
  else if bool_decide (cp ∈ unicode_blanks) then Some " "%char
  else (fun d => ascii_of_N (48 + d)) <$> decimal_digit cp.

Definition ascii_text (s : string) : option (list ascii) :=
  utf8_decode (list_ascii_of_string s) ≫= mapM to_ascii.

(** [float(s)]: the text is rewritten to ASCII and surrounding blanks are
    dropped; then comes an optional sign and [inf], [infinity] or [nan] in
    any case, or a decimal number with an optional exponent. Anything else
    is a [ValueError]. *)
Definition float_of_string (s : string) : float + exn :=
  match ascii_text s with
  | None => inr (ValueError s)
  | Some text =>
      let '(neg, body) := read_sign (strip text) in
      let word := string_of_list_ascii (lower <$> body) in
      if bool_decide (word = "inf") || bool_decide (word = "infinity") then
        inl (Inf neg)
      else if bool_decide (word = "nan") then inl NaN
      else
        match read_number body with
        | Some (ip, fp, r) =>
            match read_exponent r with
            | Some ex =>
                inl (float_of_decimal neg (digits_value (ip ++ fp))
                       (ex - Z.of_nat (length fp)))
            | None => inr (ValueError s)
            end
        | None => inr (ValueError s)
        end
  end.

(** *** [format(x, ".<prec>f")] *)

Definition digit_char (d : Z) : ascii := ascii_of_nat (Z.to_nat d + 48).

(** The last [prec] decimal digits of [q], zero padded. *)
Fixpoint frac_digits (prec : nat) (q : Z) : string :=
  match prec with
  | O => ""
  | S p => frac_digits p (q / 10) +:+ String (digit_char (q mod 10)) ""
  end.

Definition int_digits (q : Z) : string :=
  NilZero.string_of_uint (N.to_uint (Z.to_N q)).

(** Fixed-point formatting: the exact binary value is rounded to [prec]
    decimals, ties to even; a negative value keeps its sign even when it
    rounds to zero. *)
Definition format_f (prec : nat) (x : float) : string :=
  match x with
  | NaN => "nan"
  | Inf neg => if neg then "-inf" else "inf"
  | Fin neg m e =>
      let scale := 10 ^ Z.of_nat prec in
      let q :=
        if 0 <=? e then Z.of_N m * 2 ^ e * scale
        else round_half_even (Z.of_N m * scale) (2 ^ (- e)) in
      (if neg then "-" else "") +:+ int_digits (q / scale) +:+
      match prec with
      | O => ""
      | S _ => "." +:+ frac_digits prec (q mod scale)
      end
  end.

End Py.

(** ** Results and the page monad *)

(** An expression either has a value or raises. *)
Inductive result (A : Type) : Type :=
  | Ok (a : A)
  | Raise (e : Py.exn).
Arguments Ok {A} a.
Arguments Raise {A} e.

Global Instance result_ret : MRet result := fun A a => Ok a.
Global Instance result_bind : MBind result := fun A B f r =>
  match r with
  | Ok a => f a
  | Raise e => Raise e
  end.

(** [try: r except ValueError: dflt]. A [KeyError] passes through. *)
Definition except_ValueError {A} (r : result A) (dflt : A) : result A :=
  match r with
  | Raise (Py.ValueError _) => Ok dflt
  | _ => r
  end.

(** [d[k]] and [k in d] on a dict with string keys. *)
Definition getitem (d : gmap string string) (k : string) : result string :=
  match d !! k with
  | Some v => Ok v
  | None => Raise (Py.KeyError k)
  end.

Definition contains (d : gmap string string) (k : string) : bool :=
  bool_decide (is_Some (d !! k)).

Definition float (s : string) : result Py.float :=
  match Py.float_of_string s with
  | inl f => Ok f
  | inr e => Raise e
  end.

(** *** The blocks of a log

    The block classes live in [cpsat_log_parser]; the page only calls the
    accessors below, so a block is the record of what they return. A block
    object is truthy, hence [if block] is a test for [None]. *)

Record SolverBlock : Type := {
  get_parsed_version : Z * Z * Z;
  get_version : string;
  get_number_of_workers : Py.value;
  get_parameters : gmap string string;
}.

Record InitialModelBlock : Type := {
  get_num_variables : Py.value;
  get_num_constraints : Py.value;
  is_optimization : bool;
}.

(** One point of the search progress: time, objective, bound. *)
Definition data_point : Type := Py.float * Py.float * Py.float.

Record SearchProgressBlock : Type := {
  get_presolve_time : Py.float;
  data_points : list data_point;
}.

(** The chart model that [as_plotly] builds. *)
Inductive figure : Type := Figure (series : list data_point).

(** Modelled from the spec: [SearchProgressBlock.as_plotly] of
    [cpsat_log_parser], which is missing here. The block "can produce a
    plottable time series of bound/objective progression (or report no
    data)": a figure of the data points, [None] when there are none. *)
Definition as_plotly (b : SearchProgressBlock) : option figure :=
  match data_points b with
  | [] => None
  | pts => Some (Figure pts)
  end.

(** [to_dict] is the flat mapping of the response section, field name to
    field text. [get_gap] is the block's own gap: a float, [None], or an
    exception. *)
Record ResponseBlock : Type := {
  to_dict : gmap string string;
  get_gap : result (option Py.float);
}.

Record PresolveSummaryBlock : Type := {
  is_solved_by_presolve : bool;
}.

Inductive Block : Type :=
  | BSolver (b : SolverBlock)
  | BInitialModel (b : InitialModelBlock)
  | BSearchProgress (b : SearchProgressBlock)
  | BResponse (b : ResponseBlock)
  | BPresolveSummary (b : PresolveSummaryBlock)
  | BOther (title : string).

Record LogParser : Type := {
  comments : list string;
  blocks : list Block;
}.

(** The block classes, as what [isinstance] selects. *)
Definition is_SolverBlock (b : Block) : option SolverBlock :=
  match b with BSolver x => Some x | _ => None end.
Definition is_InitialModelBlock (b : Block) : option InitialModelBlock :=
  match b with BInitialModel x => Some x | _ => None end.
Definition is_SearchProgressBlock (b : Block) : option SearchProgressBlock :=
  match b with BSearchProgress x => Some x | _ => None end.
Definition is_ResponseBlock (b : Block) : option ResponseBlock :=
  match b with BResponse x => Some x | _ => None end.
Definition is_PresolveSummaryBlock (b : Block) : option PresolveSummaryBlock :=
  match b with BPresolveSummary x => Some x | _ => None end.

(** Modelled from the spec: [LogParser.get_block_of_type_or_none] of
    [cpsat_log_parser], which is missing here. The registry "returns the
    single instance of the requested kind, or an explicit absent sentinel if
    none exists", preferring the first occurrence. *)
Definition get_block_of_type_or_none {A} (kind : Block -> option A)
    (parser : LogParser) : option A :=
  head (omap kind (blocks parser)).

(** *** Streamlit calls *)

(** Where a widget is drawn: the page, the [i]-th column of the latest
    [columns] call on a container, or a chat message. *)
Inductive container : Type :=
  | Page
  | Column (parent : container) (i : nat)
  | Chat (name : string).

(** The arguments of [metric]. [delta] defaults to [None] and [delta_color]
    to ["normal"]. *)
Record metric : Type := {
  label : string;
  value : Py.value;
  help : string;
  delta : option string;
  delta_color : string;
}.

(** A call that leaves the file: a Streamlit element, or the construction of
    the chart by the search progress block. *)
Inductive call : Type :=
  | Subheader (text : string) (divider : bool)
  | ChatMessage (name : string)
  | Write (target : container) (text : string)
  | Columns (target : container) (n : nat)
  | Metric (target : container) (m : metric)
  | Markdown (text : string)
  | Json (params : gmap string string)
  | AsPlotly (b : SearchProgressBlock)
  | PlotlyChart (fig : figure) (use_container_width : bool) (key : string)
  | Info (text : string)
  | Error (text : string).

(** A piece of the script: the calls it made, in order, and how it ended. *)
Definition UI (A : Type) : Type := list call * result A.

Global Instance UI_ret : MRet UI := fun A a => ([], Ok a).
Global Instance UI_bind : MBind UI := fun A B f m =>
  match m with
  | (tr, Ok a) => let '(tr', r) := f a in (tr ++ tr', r)
  | (tr, Raise e) => (tr, Raise e)
  end.

Definition emit (c : call) : UI unit := ([c], Ok tt).
Definition eval {A} (r : result A) : UI A := ([], r).
Definition skip : UI unit := mret tt.

(** [try: body except KeyError as ke: handler ke]. The calls of the body up
    to the raise stay made. *)
Definition except_KeyError (body : UI unit) (handler : string -> UI unit)
    : UI unit :=
  match body with
  | (tr, Raise (Py.KeyError k)) => let '(tr', r) := handler k in (tr ++ tr', r)
  | _ => body
  end.

Definition trace {A} (m : UI A) : list call := fst m.
Definition outcome {A} (m : UI A) : result A := snd m.

(** *** What [f"{ke}"] shows for a [KeyError]

    [str] of a [KeyError] is [repr] of the key: the text in single quotes
    (double quotes when it holds a single quote and no double one), with
    backslashes, the chosen quote and control characters escaped. *)

Definition hex_digit (n : nat) : ascii :=
  if (n <? 10)%nat then ascii_of_nat (n + 48) else ascii_of_nat (n + 87).

Definition repr_char (quote : ascii) (c : ascii) : string :=
  let n := nat_of_ascii c in
  if bool_decide (c = "\"%char) then "\\"
  else if bool_decide (c = quote) then String "\"%char (String c "")
  else if bool_decide (c = "010"%char) then "\n"
  else if bool_decide (c = "013"%char) then "\r"
  else if bool_decide (c = "009"%char) then "\t"
  else if (n <? 32)%nat || (n =? 127)%nat then
    String "\"%char (String "x"%char
      (String (hex_digit (n / 16)) (String (hex_digit (n mod 16)) "")))
  else String c "".

Fixpoint has_char (c : ascii) (s : string) : bool :=
  match s with
  | EmptyString => false
  | String c' s' => bool_decide (c = c') || has_char c s'
  end.

Fixpoint concat_map (f : ascii -> string) (s : string) : string :=
  match s with
  | EmptyString => ""
  | String c s' => f c +:+ concat_map f s'
  end.

Definition repr (s : string) : string :=
  let quote :=
    if has_char "'"%char s && negb (has_char "034"%char s)
    then "034"%char else "'"%char in
  String quote (concat_map (repr_char quote) s) +:+ String quote "".

(** ** The page *)

Definition version_help : string :=
  "CP-SAT has seen significant performance improvements over the last years. Make sure to use the latest version.".

Definition add_version_gadget (st_ : container)
    (solver_block : option SolverBlock) : UI unit :=
  match solver_block with
  | None =>
      emit (Metric st_
        {| label := "CP-SAT Version"; value := Py.VStr "N/A";
           help := version_help; delta := None; delta_color := "inverse" |})
  | Some b =>
      let '(major, minor, patch) := get_parsed_version b in
      if (major <? 9) || ((major =? 9) && (minor <? 10)) then
        emit (Metric st_
          {| label := "CP-SAT Version"; value := Py.VStr (get_version b);
             help := version_help; delta := Some "outdated";
             delta_color := "inverse" |})
      else
        emit (Metric st_
          {| label := "CP-SAT Version"; value := Py.VStr (get_version b);
             help := version_help; delta := None; delta_color := "normal" |})
  end.

Definition workers_help : string :=
  "CP-SAT has different parallelization tiers, triggered by the number of workers. More workers can improve performance. Fine more information [here](https://github.com/google/or-tools/blob/main/ortools/sat/docs/troubleshooting.md#improving-performance-with-multiple-workers)".

Definition add_number_of_workers_gadget (st_ : container)
    (solver_block : option SolverBlock) : UI unit :=
  emit (Metric st_
    {| label := "Number of workers";
       value := match solver_block with
                | Some b => get_number_of_workers b
                | None => Py.VNone
                end;
       help := workers_help; delta := None; delta_color := "normal" |}).

(** The three elements go to the page itself, whatever [st_] is. *)
Definition show_parameters (st_ : container)
    (solver_block : option SolverBlock) : UI unit :=
  match solver_block with
  | Some b =>
      if bool_decide (get_parameters b ≠ ∅) then
        emit (Markdown ("*CP-SAT was setup with the following parameters:*"
                        +:+ String "010"%char ""));;
        emit (Json (get_parameters b));;
        emit (Markdown
          "*You can find more information about the parameters [here](https://github.com/google/or-tools/blob/stable/ortools/sat/sat_parameters.proto).*")
      else skip
  | None => skip
  end.

Definition status_help : string :=
  "
CP-SAT can have 5 different statuses:
- `UNKNOWN`: The solver timed out before finding a solution or proving infeasibility.
- `OPTIMAL`: The solver found an optimal solution. This is the best possible status.
- `FEASIBLE`: The solver found a feasible solution, but it is not guaranteed to be optimal.
- `INFEASIBLE`: The solver proved that the problem is infeasible. This often indicates a bug in the model.
- `MODEL_INVALID`: Definitely a bug. Should rarely happen.
".

Definition time_help : string :=
  "The total time spent by the solver. This includes the time spent in presolve and the time spent in the search.".

Definition presolve_help : string :=
  "The time spent in presolve. This is usually a small fraction of the total time.".

Definition plain (l : string) (v : Py.value) (h : string) : metric :=
  {| label := l; value := v; help := h; delta := None;
     delta_color := "normal" |}.

Definition show_status_metrics (st_ : container)
    (response : gmap string string)
    (search_progress_block : option SearchProgressBlock) : UI unit :=
  emit (Columns st_ 3);;
  status ← eval (getitem response "status");
  emit (Metric (Column st_ 0) (plain "Status" (Py.VStr status) status_help));;
  time ← eval (
    if contains response "walltime" then
      w ← getitem response "walltime";
      t ← float w;
      mret (Py.VStr (Py.format_f 3 t +:+ "s"))
    else mret Py.VNone);
  emit (Metric (Column st_ 1) (plain "Time" time time_help));;
  emit (Metric (Column st_ 2)
    (plain "Presolve"
       match search_progress_block with
       | Some b => Py.VStr (Py.format_f 3 (get_presolve_time b) +:+ "s")
       | None => Py.VNone
       end
       presolve_help)).

Definition variables_help : string :=
  "CP-SAT can handle (hundreds of) thousands of variables. This just gives a rough estimate of the size of the problem. Check *Initial Optimization Model* for more information. Many variables may also be removed during presolve, check *Presolve Summary*.".

Definition constraints_help : string :=
  "CP-SAT can handle (hundreds of) thousands of constraints. More important than the number is the type of constraints. Some constraints are more expensive than others. Check *Initial Optimization Model* for more information.".

Definition type_help : string :=
  "Is the model an optimization or satisfaction model?".

Definition show_model_metrics (st_ : container)
    (initial_model_block : option InitialModelBlock) : UI unit :=
  emit (Columns st_ 3);;
  emit (Metric (Column st_ 0)
    (plain "Variables"
       match initial_model_block with
       | Some b => get_num_variables b
       | None => Py.VNone
       end
       variables_help));;
  emit (Metric (Column st_ 1)
    (plain "Constraints"
       match initial_model_block with
       | Some b => get_num_constraints b
       | None => Py.VNone
       end
       constraints_help));;
  emit (Metric (Column st_ 2)
    (plain "Type"
       match initial_model_block with
       | Some b =>
           Py.VStr (if is_optimization b then "Optimization"
                    else "Satisfaction")
       | None => Py.VNone
       end
       type_help)).

Definition gap_help : string :=
  "The gap is the difference between the objective and the best bound. The smaller the better. A gap of 0% means that the solution is optimal.".

Definition show_objective_metrics (st_ : container)
    (response : gmap string string)
    (response_block : option ResponseBlock) : UI unit :=
  emit (Columns st_ 3);;
  obj ← eval (except_ValueError
    (o ← getitem response "objective"; f ← float o; mret (Py.VFloat f))
    Py.VNone);
  emit (Metric (Column st_ 0)
    (plain "Objective" obj "Value of the best solution found."));;
  bound ← eval (except_ValueError
    (b ← getitem response "best_bound"; f ← float b; mret (Py.VFloat f))
    Py.VNone);
  emit (Metric (Column st_ 1)
    (plain "Best bound" bound
       "Bound on how good the best solution can be. If it matches the objective, the solution is optimal."));;
  gap ← eval (except_ValueError
    match response_block with
    | Some b => get_gap b
    | None => Ok None
    end
    None);
  emit (Metric (Column st_ 2)
    (plain "Gap"
       match gap with
       | Some g => Py.VStr (Py.format_f 2 g +:+ "%")
       | None => Py.VNone
       end
       gap_help)).

Definition show_search_plot (st_ : container)
    (response : gmap string string)
    (search_progress_block : option SearchProgressBlock)
    (initial_model_block : option InitialModelBlock) : UI unit :=
  finished ← eval (
    if contains response "status" then
      status ← getitem response "status";
      Ok (bool_decide (status ∈ ["OPTIMAL"; "FEASIBLE"]))
    else Ok false);
  if finished : bool then
    match search_progress_block, initial_model_block with
    | Some sp, Some im =>
        if is_optimization im then
          emit (AsPlotly sp);;
          match as_plotly sp with
          | Some fig =>
              emit (PlotlyChart fig true "search_progress_overview")
          | None => skip
          end
        else skip
    | _, _ => skip
    end
  else skip.

(** [s.replace(old, new)] for a non-empty [old]: occurrences are found from
    the left and do not overlap; [skip] counts the characters of a match
    still to drop. *)
Fixpoint replace_from (old new : string) (skip : nat) (s : string) : string :=
  match s with
  | EmptyString => ""
  | String c s' =>
      match skip with
      | S k => replace_from old new k s'
      | O =>
          if String.prefix old s then
            new +:+ replace_from old new (String.length old - 1) s'
          else String c (replace_from old new 0 s')
      end
  end.

Definition replace (old new s : string) : string := replace_from old new 0 s.

Definition newline : string := String "010"%char "".

Definition incomplete_log (ke : string) : string :=
  "Error parsing information. Log seems to be incomplete: " +:+ repr ke +:+
  ". Make sure you enter the full log without any modifications. The parser is sensitive to new lines.".

(** The body of the [try] of [show_overview]. *)
Definition overview_body (parser : LogParser) : UI unit :=
  let solver_block := get_block_of_type_or_none is_SolverBlock parser in
  let initial_model_block :=
    get_block_of_type_or_none is_InitialModelBlock parser in
  let search_progress_block :=
    get_block_of_type_or_none is_SearchProgressBlock parser in
  let response_block := get_block_of_type_or_none is_ResponseBlock parser in
  emit (Columns Page 2);;
  add_version_gadget (Column Page 0) solver_block;;
  add_number_of_workers_gadget (Column Page 1) solver_block;;
  show_parameters Page solver_block;;
  let response :=
    match response_block with
    | Some b => to_dict b
    | None => ∅
    end in
  show_status_metrics Page response search_progress_block;;
  show_model_metrics Page initial_model_block;;
  show_objective_metrics Page response response_block;;
  show_search_plot Page response search_progress_block initial_model_block;;
  let presolve := get_block_of_type_or_none is_PresolveSummaryBlock parser in
  match presolve with
  | Some b =>
      if is_solved_by_presolve b then
        emit (Info "The model was solved by presolve.")
      else skip
  | None => skip
  end.

(** The text written into the chat message. *)
Definition comment_text (comments : list string) : string :=
  let comment := String.concat newline comments in
  let comment := replace "\" "" comment in
  let comment := replace "[" "\[*" comment in
  let comment := replace "]" "*\]" comment in
  comment.

Definition show_overview (parser : LogParser) : UI unit :=
  emit (Subheader "Overview" true);;
  (if bool_decide (comments parser ≠ []) then
     emit (ChatMessage "user");;
     emit (Write (Chat "user") (comment_text (comments parser)))
   else skip);;
  except_KeyError (overview_body parser)
    (fun ke => emit (Error (incomplete_log ke))).

(** ** Reading a trace *)

(** The metric entries of a trace, in order. *)
Definition metrics (tr : list call) : list metric :=
  omap (fun c => match c with Metric _ m => Some m | _ => None end) tr.

(** The value shown by the first metric with label [l]. *)
Definition metric_value (l : string) (tr : list call) : option Py.value :=
  value <$> head (filter (fun m => label m = l) (metrics tr)).

(** The flag ([delta]) of the first metric with label [l]. *)
Definition metric_delta (l : string) (tr : list call)
    : option (option string) :=
  delta <$> head (filter (fun m => label m = l) (metrics tr)).

Definition is_plot (c : call) : bool :=
  match c with PlotlyChart _ _ _ => true | _ => false end.

Definition is_as_plotly (c : call) : bool :=
  match c with AsPlotly _ => true | _ => false end.

Definition is_error (c : call) : bool :=
  match c with Error _ => true | _ => false end.

Definition is_comment (c : call) : bool :=
  match c with ChatMessage _ | Write _ _ => true | _ => false end.

(** The elements drawn on the page: every call but the chart construction,
    which draws nothing by itself. *)
Definition drawn (tr : list call) : list call :=
  filter (fun c => is_as_plotly c = false) tr.

(** The sentinels of an unknown metric: [None], and the text ["N/A"] of the
    version gadget. *)
Definition is_unknown (v : Py.value) : bool :=
  bool_decide (v = Py.VNone) || bool_decide (v = Py.VStr "N/A").

(** The labels of a full report, in page order. *)
Definition report_labels : list string :=
  ["CP-SAT Version"; "Number of workers"; "Status"; "Time"; "Presolve";
   "Variables"; "Constraints"; "Type"; "Objective"; "Best bound"; "Gap"].

(** A finite float printed with two decimals and a percent sign: an optional
    minus, digits, a point, two digits, [%]. *)
Fixpoint all_digits (s : string) : bool :=
  match s with
  | EmptyString => true
  | String c s' => Py.is_digit c && all_digits s'
  end.

Definition two_decimal_percent (s : string) : Prop :=
  ∃ sign ip d1 d2,
    s = sign +:+ ip +:+ "." +:+ String d1 (String d2 "%") ∧
    (sign = "" ∨ sign = "-") ∧
    ip ≠ "" ∧ all_digits ip = true ∧
    Py.is_digit d1 = true ∧ Py.is_digit d2 = true.

(** ** The comment text, in the words of the specification

    Every backslash is deleted; then every [[] becomes [\[*] and every []]
    becomes [*\]]. *)

Definition delete_backslash (c : ascii) : string :=
  if bool_decide (c = "\"%char) then "" else String c "".

Definition escape_bracket (c : ascii) : string :=
  if bool_decide (c = "["%char) then "\[*"
  else if bool_decide (c = "]"%char) then "*\]"
  else String c "".

Definition displayed_comment (comments : list string) : string :=
  concat_map escape_bracket
    (concat_map delete_backslash (String.concat newline comments)).

(** The flag of the version metric for a present solver block. *)
Definition version_flag (st_ : container) (b : SolverBlock)
    : option (option string) :=
  metric_delta "CP-SAT Version" (trace (add_version_gadget st_ (Some b))).

(** Plot eligibility, in the words of the specification: the response status
    is OPTIMAL or FEASIBLE, a search progress block exists and yields at
    least one data point, an initial model block exists, and it classifies
    the model as an optimization problem. *)
Definition status_finished (response : gmap string string) : Prop :=
  ∃ s, response !! "status" = Some s ∧ (s = "OPTIMAL" ∨ s = "FEASIBLE").

Definition is_optimization_model (imb : option InitialModelBlock) : Prop :=
  ∃ im, imb = Some im ∧ is_optimization im = true.

Definition plot_eligible (response : gmap string string)
    (spb : option SearchProgressBlock) (imb : option InitialModelBlock)
    : Prop :=
  status_finished response ∧
  (∃ sp, spb = Some sp ∧ data_points sp ≠ []) ∧
  is_optimization_model imb.

(** The labels of the metric entries of a trace. *)
Definition labels (tr : list call) : list string := label <$> metrics tr.

(** The claim of an all-unknown report: no error box, a normal return, the
    full list of metrics, each of them showing a sentinel. *)
Definition unknown_report (run : UI unit) : Prop :=
  existsb is_error (trace run) = false ∧
  outcome run = Ok tt ∧
  labels (trace run) = report_labels ∧
  Forall (fun m => is_unknown (value m) = true) (metrics (trace run)).

(** The response mapping that [show_overview] works on. *)
Definition response_of (parser : LogParser) : gmap string string :=
  match get_block_of_type_or_none is_ResponseBlock parser with
  | Some b => to_dict b
  | None => ∅
  end.

(** The calls made for the comments, and for the solver block. *)
Definition comment_calls (comments : list string) : list call :=
  if bool_decide (comments ≠ []) then
    [ChatMessage "user"; Write (Chat "user") (comment_text comments)]
  else [].

Definition solver_calls (parser : LogParser) : list call :=
  let solver_block := get_block_of_type_or_none is_SolverBlock parser in
  Columns Page 2 ::
  trace (add_version_gadget (Column Page 0) solver_block) ++
  trace (add_number_of_workers_gadget (Column Page 1) solver_block) ++
  trace (show_parameters Page solver_block).

(** [show_overview] with its [try] statement alone. *)
Definition guarded_body (parser : LogParser) : UI unit :=
  except_KeyError (overview_body parser)
    (fun ke => emit (Error (incomplete_log ke))).

(** A call that is no part of the comments. *)
Definition quiet (c : call) : Prop := is_comment c = false.

(** ** Sample logs *)

Definition zero (e : Z) : Py.float := Py.Fin false 0 e.

Definition solver_9_9 (patch : Z) : SolverBlock :=
  {| get_parsed_version := (9, 9, patch); get_version := "9.9";
     get_number_of_workers := Py.VInt 8; get_parameters := ∅ |}.

(** A log with no block at all. *)
Definition empty_log : LogParser := {| comments := []; blocks := [] |}.

(** A response whose wall time is not a number. *)
Definition response_bad_walltime : ResponseBlock :=
  {| to_dict :=
       {[ "status" := "OPTIMAL"; "walltime" := "abc"; "objective" := "1";
          "best_bound" := "1" ]};
     get_gap := Ok (Some (zero 0)) |}.

Definition log_bad_walltime : LogParser :=
  {| comments := []; blocks := [BResponse response_bad_walltime] |}.

(** A response section that lost its status line. *)
Definition response_no_status : ResponseBlock :=
  {| to_dict :=
       {[ "walltime" := "1.5"; "objective" := "1"; "best_bound" := "1" ]};
     get_gap := Ok (Some (zero 0)) |}.

Definition log_no_status : LogParser :=
  {| comments := ["run 1"]; blocks := [BResponse response_no_status] |}.

(** A finished optimization run whose search progress has no data point. *)
Definition progress_no_data : SearchProgressBlock :=
  {| get_presolve_time := zero 0; data_points := [] |}.

Definition optimization_model : InitialModelBlock :=
  {| get_num_variables := Py.VInt 3; get_num_constraints := Py.VInt 2;
     is_optimization := true |}.

Definition response_optimal : gmap string string :=
  {[ "status" := "OPTIMAL"; "objective" := "10"; "best_bound" := "10" ]}.

(** The objective is the token [inf]. *)
Definition response_inf_objective : ResponseBlock :=
  {| to_dict :=
       {[ "status" := "FEASIBLE"; "objective" := "inf"; "best_bound" := "10" ]};
     get_gap := Ok None |}.

(** The objective is the token [NA], as for a model without objective. *)
Definition response_NA_objective : ResponseBlock :=
  {| to_dict :=
       {[ "status" := "OPTIMAL"; "objective" := "NA"; "best_bound" := "NA" ]};
     get_gap := Ok None |}.

Definition response_zero_gap : ResponseBlock :=
  {| to_dict := response_optimal; get_gap := Ok (Some (zero 0)) |}.

(** A block whose own gap is not a number. *)
Definition response_nan_gap : ResponseBlock :=
  {| to_dict := response_optimal; get_gap := Ok (Some Py.NaN) |}.

(** ** The parts of the body

    The body of [show_overview] runs the solver part, then the four parts
    below, then the presolve notice. *)

Definition status_part (parser : LogParser) : UI unit :=
  show_status_metrics Page (response_of parser)
    (get_block_of_type_or_none is_SearchProgressBlock parser).

Definition model_part (parser : LogParser) : UI unit :=
  show_model_metrics Page
    (get_block_of_type_or_none is_InitialModelBlock parser).

Definition objective_part (parser : LogParser) : UI unit :=
  show_objective_metrics Page (response_of parser)
    (get_block_of_type_or_none is_ResponseBlock parser).

Definition plot_part (parser : LogParser) : UI unit :=
  show_search_plot Page (response_of parser)
    (get_block_of_type_or_none is_SearchProgressBlock parser)
    (get_block_of_type_or_none is_InitialModelBlock parser).

Definition presolve_calls (parser : LogParser) : list call :=
  match get_block_of_type_or_none is_PresolveSummaryBlock parser with
  | Some b =>
      if is_solved_by_presolve b
      then [Info "The model was solved by presolve."] else []
  | None => []
  end.

(** What a metric shows for the text of a numeric field. *)
Definition field_value (text : string) : Py.value :=
  match Py.float_of_string text with
  | inl f => Py.VFloat f
  | inr _ => Py.VNone
  end.

(** A text that [float] accepts. *)
Definition numeric (text : string) : Prop :=
  ∃ f, Py.float_of_string text = inl f.

(** The wall time, when the response has one, is a number. *)
Definition walltime_ok (response : gmap string string) : Prop :=
  ∀ w, response !! "walltime" = Some w -> numeric w.

(** The gap accessor of the response block, if there is one, raises no
    [KeyError]. *)
Definition gap_ok (rb : option ResponseBlock) : Prop :=
  ∀ b k, rb = Some b -> get_gap b ≠ Raise (Py.KeyError k).

(** A log on which no part of the body raises: the response has a status,
    an objective and a best bound, and the two conditions above hold. *)
Definition complete_log (parser : LogParser) : Prop :=
  is_Some (response_of parser !! "status") ∧
  walltime_ok (response_of parser) ∧
  is_Some (response_of parser !! "objective") ∧
  is_Some (response_of parser !! "best_bound") ∧
  gap_ok (get_block_of_type_or_none is_ResponseBlock parser).

(** A fixed-point text with [prec] decimals: an optional minus, digits, a
    point and [prec] digits. *)
Definition fixed_point (prec : nat) (s : string) : Prop :=
  ∃ sign ip fp,
    s = sign +:+ ip +:+ "." +:+ fp ∧
    (sign = "" ∨ sign = "-") ∧
    ip ≠ "" ∧ all_digits ip = true ∧
    all_digits fp = true ∧ String.length fp = prec.

(** A character that the comment text leaves alone. *)
Definition plain_char (c : ascii) : bool :=
  negb (bool_decide (c = "\"%char) || bool_decide (c = "["%char) ||
        bool_decide (c = "]"%char)).

Fixpoint plain_text (s : string) : bool :=
  match s with
  | EmptyString => true
  | String c s' => plain_char c && plain_text s'
  end.

Definition is_json (c : call) : bool :=
  match c with Json _ => true | _ => false end.

(** The texts of the notices ([st.info]), in order. *)
Definition info_calls (tr : list call) : list string :=
  omap (fun c => match c with Info text => Some text | _ => None end) tr.


(** The parameter mappings shown as JSON, in order. *)
Definition json_calls (tr : list call) : list (gmap string string) :=
  omap (fun c => match c with Json params => Some params | _ => None end) tr.

(** Sample logs for the whole page. *)
Definition response_complete : ResponseBlock :=
  {| to_dict :=
       {[ "status" := "OPTIMAL"; "walltime" := "1.5"; "objective" := "10";
          "best_bound" := "10" ]};
     get_gap := Ok (Some (zero 0)) |}.

Definition progress_one_point : SearchProgressBlock :=
  {| get_presolve_time := Py.Fin false 1 (-2);
     data_points := [(zero 0, zero 0, zero 0)] |}.

Definition solver_with_parameters : SolverBlock :=
  {| get_parsed_version := (9, 10, 0); get_version := "9.10";
     get_number_of_workers := Py.VInt 8;
     get_parameters := {[ "max_time_in_seconds" := "30" ]} |}.

Definition log_complete : LogParser :=
  {| comments := ["plain comment"];
     blocks :=
       [BSolver solver_with_parameters; BInitialModel optimization_model;
        BSearchProgress progress_one_point; BResponse response_complete;
        BPresolveSummary {| is_solved_by_presolve := true |}] |}.



(** ** Laws of the page monad *)

Lemma bind_ok {A B} (m : UI A) (f : A -> UI B) tr a :
  m = (tr, Ok a) -> m ≫= f = (tr ++ trace (f a), outcome (f a)).
Proof. intros ->. unfold mbind, UI_bind, trace, outcome. by destruct (f a). Qed.


Lemma emit_bind {B} c (f : unit -> UI B) :
  emit c ≫= f = (c :: trace (f tt), outcome (f tt)).
Proof. by rewrite (bind_ok _ _ [c] tt). Qed.

Lemma eval_ok_bind {A B} (a : A) (f : A -> UI B) : eval (Ok a) ≫= f = f a.
Proof. unfold eval, mbind, UI_bind. by destruct (f a). Qed.


Lemma trace_bind_ok {A B} (m : UI A) (f : A -> UI B) a :
  outcome m = Ok a -> trace (m ≫= f) = trace m ++ trace (f a).
Proof.
  destruct m as [tr r]; intros H; change (r = Ok a) in H; subst r.
  by rewrite (bind_ok _ _ tr a).
Qed.


(** A property of every call is kept by sequencing. *)
Lemma Forall_trace_bind {A B} (P : call -> Prop) (m : UI A) (f : A -> UI B) :
  Forall P (trace m) -> (∀ a, Forall P (trace (f a))) ->
  Forall P (trace (m ≫= f)).
Proof.
  destruct m as [tr [a|e]]; intros Hm Hf; [|done].
  rewrite (trace_bind_ok _ _ a) by done.
  apply Forall_app; split; [done|apply Hf].
Qed.

(** ** The solver gadgets *)

Lemma add_version_gadget_returns st_ sb :
  outcome (add_version_gadget st_ sb) = Ok tt.
Proof.
  destruct sb as [b|]; [|done]. unfold add_version_gadget.
  destruct (get_parsed_version b) as [[major minor] patch].
  by destruct (_ || _).
Qed.

Lemma version_flag_eq st_ b :
  version_flag st_ b =
  let '(major, minor, _) := get_parsed_version b in
  Some (if (major <? 9) || ((major =? 9) && (minor <? 10))
        then Some "outdated" else None).
Proof.
  unfold version_flag, add_version_gadget.
  destruct (get_parsed_version b) as [[major minor] patch].
  by destruct (_ || _).
Qed.

(** C4. For a present solver block with parsed version (major, minor, patch)
    the version metric carries the flag "outdated" exactly when major < 9 or
    (major = 9 and minor < 10), and no flag otherwise. The patch number plays
    no part: 9.9.x is outdated for every x, while 9.10.0 and 10.0.0 are
    current. *)
Theorem version_outdated_iff (st_ : container) :
  (∀ b : SolverBlock,
     let '(major, minor, patch) := get_parsed_version b in
     (version_flag st_ b = Some (Some "outdated") <->
        major < 9 ∨ (major = 9 ∧ minor < 10)) ∧
     (version_flag st_ b = Some None <->
        ¬ (major < 9 ∨ (major = 9 ∧ minor < 10)))) ∧
  (∀ x text workers params,
     version_flag st_ (Build_SolverBlock (9, 9, x) text workers params)
     = Some (Some "outdated")) ∧
  (∀ text workers params,
     version_flag st_ (Build_SolverBlock (9, 10, 0) text workers params)
     = Some None) ∧
  (∀ text workers params,
     version_flag st_ (Build_SolverBlock (10, 0, 0) text workers params)
     = Some None).
Proof.
  split; [|by repeat split; intros; rewrite version_flag_eq].
  intros b. rewrite version_flag_eq.
  destruct (get_parsed_version b) as [[major minor] patch].
  destruct (Z.ltb_spec major 9) as [Hlt|Hge]; simpl.
  { split; split; intros Hc; try done; [by left|tauto]. }
  destruct (Z.eqb_spec major 9) as [->|Hne]; simpl.
  - destruct (Z.ltb_spec minor 10); split; split; intros Hc;
      try done; try lia; try tauto.
  - split; split; intros Hc; try done; lia.
Qed.

Lemma add_number_of_workers_gadget_returns st_ sb :
  outcome (add_number_of_workers_gadget st_ sb) = Ok tt.
Proof. reflexivity. Qed.

(** C8, as the code has it. Without a solver block the worker-count metric
    shows the absent value [None]; with a solver block it shows the block's
    worker count unchanged. *)
Theorem workers_metric_passthrough (st_ : container) :
  add_number_of_workers_gadget st_ None
  = ([Metric st_ (plain "Number of workers" Py.VNone workers_help)], Ok tt) ∧
  ∀ b : SolverBlock,
    add_number_of_workers_gadget st_ (Some b)
    = ([Metric st_
          (plain "Number of workers" (get_number_of_workers b) workers_help)],
       Ok tt).
Proof. split; [reflexivity|intros b; reflexivity]. Qed.

(** C8, as stated, fails: with no solver block the worker-count metric does
    not show the text "N/A". *)
Lemma workers_absent_is_not_NA :
  metric_value "Number of workers"
    (trace (add_number_of_workers_gadget Page None))
  ≠ Some (Py.VStr "N/A").
Proof. vm_compute. discriminate. Qed.

(** ** The search plot *)

Lemma getitem_Some (d : gmap string string) k v :
  d !! k = Some v -> contains d k = true ∧ getitem d k = Ok v.
Proof.
  intros H. unfold contains, getitem. rewrite H. split; [|done].
  apply bool_decide_eq_true. by eexists.
Qed.

Lemma getitem_None (d : gmap string string) k :
  d !! k = None -> contains d k = false ∧ getitem d k = Raise (Py.KeyError k).
Proof.
  intros H. unfold contains, getitem. rewrite H. split; [|done].
  apply bool_decide_eq_false. by intros [? [=]].
Qed.

Lemma finished_status s :
  bool_decide (s ∈ ["OPTIMAL"; "FEASIBLE"]) = true <->
  s = "OPTIMAL" ∨ s = "FEASIBLE".
Proof.
  rewrite bool_decide_eq_true, !elem_of_cons, elem_of_nil. tauto.
Qed.

(** What [show_search_plot] does, case by case. *)
Lemma show_search_plot_cases st_ response spb imb :
  show_search_plot st_ response spb imb =
  match response !! "status", spb, imb with
  | Some s, Some sp, Some im =>
      if bool_decide (s ∈ ["OPTIMAL"; "FEASIBLE"]) && is_optimization im then
        match data_points sp with
        | [] => ([AsPlotly sp], Ok tt)
        | pts =>
            ([AsPlotly sp;
              PlotlyChart (Figure pts) true "search_progress_overview"],
             Ok tt)
        end
      else ([], Ok tt)
  | _, _, _ => ([], Ok tt)
  end.
Proof.
  unfold show_search_plot.
  destruct (response !! "status") as [s|] eqn:Hs.
  - destruct (getitem_Some _ _ _ Hs) as [-> ->]. cbn [mbind result_bind].
    rewrite eval_ok_bind.
    destruct (bool_decide _); simpl;
      [|by destruct spb as [sp|], imb as [im|]].
    destruct spb as [sp|], imb as [im|]; try done.
    destruct (is_optimization im); [|done].
    unfold as_plotly. by destruct (data_points sp).
  - destruct (getitem_None _ _ Hs) as [-> _].
    rewrite eval_ok_bind. by destruct spb as [sp|], imb as [im|].
Qed.

(** C6. [show_search_plot] draws the chart exactly when the response status
    is OPTIMAL or FEASIBLE, the search progress block exists and has at least
    one data point, and the initial model block exists and is an optimization
    model. It always returns normally, and when a condition fails nothing is
    drawn at all (so a satisfaction model gets no plot, whatever its search
    data). *)
Theorem search_plot_iff_eligible (st_ : container)
    (response : gmap string string) (spb : option SearchProgressBlock)
    (imb : option InitialModelBlock) :
  let run := show_search_plot st_ response spb imb in
  (existsb is_plot (trace run) = true <-> plot_eligible response spb imb) ∧
  outcome run = Ok tt ∧
  (¬ plot_eligible response spb imb -> drawn (trace run) = []).
Proof.
  intros run. subst run. rewrite show_search_plot_cases.
  unfold plot_eligible, status_finished, is_optimization_model.
  assert (Hnone : ∀ P : Prop, ¬ P ->
    (existsb is_plot (trace ([] : list call, Ok tt)) = true <-> P) ∧
    outcome ([] : list call, Ok tt) = Ok tt ∧
    (¬ P -> drawn (trace ([] : list call, Ok tt)) = [])).
  { intros P HP. split; [split; [intros [=]|done]|done]. }
  destruct (response !! "status") as [s|] eqn:Hs;
    [|apply Hnone; by intros [(? & [=] & _) _]].
  destruct spb as [sp|];
    [|apply Hnone; by intros (_ & (? & [=] & _) & _)].
  destruct imb as [im|];
    [|apply Hnone; by intros (_ & _ & (? & [=] & _))].
  destruct (bool_decide (s ∈ _)) eqn:Hfin; cycle 1.
  { apply Hnone. intros ((s' & [= <-] & Hs') & _).
    apply finished_status in Hs'. congruence. }
  apply finished_status in Hfin.
  destruct (is_optimization im) eqn:Hopt; cycle 1.
  { apply Hnone. intros (_ & _ & (im' & [= <-] & Hopt')). congruence. }
  destruct (data_points sp) as [|pt pts] eqn:Hpts; simpl.
  - split; [split; [intros [=]|]|split; [done|intros _; done]].
    intros (_ & (sp' & [= <-] & Hne) & _). by rewrite Hpts in Hne.
  - assert (He : (∃ s0, Some s = Some s0 ∧ (s0 = "OPTIMAL" ∨ s0 = "FEASIBLE")) ∧
                 (∃ sp0, Some sp = Some sp0 ∧ data_points sp0 ≠ []) ∧
                 (∃ im0, Some im = Some im0 ∧ is_optimization im0 = true)).
    { split; [by exists s|]. split; [|by exists im].
      exists sp. by rewrite Hpts. }
    split; [done|]. split; [done|]. intros Hno. by destruct Hno.
Qed.

(** C7, as the code has it. When the search progress block has no data
    point, no chart is drawn, but the chart construction [as_plotly] is still
    called whenever the other conditions hold (finished status and an
    optimization model); its empty result is then dropped. *)
Theorem no_data_no_chart (st_ : container) (response : gmap string string)
    (sp : SearchProgressBlock) (imb : option InitialModelBlock) :
  data_points sp = [] ->
  let run := show_search_plot st_ response (Some sp) imb in
  existsb is_plot (trace run) = false ∧
  (AsPlotly sp ∈ trace run <->
     status_finished response ∧ is_optimization_model imb) ∧
  outcome run = Ok tt.
Proof.
  intros Hpts run. subst run. rewrite show_search_plot_cases, Hpts.
  unfold status_finished, is_optimization_model.
  assert (Hnone : ∀ P : Prop, ¬ P ->
    existsb is_plot (trace ([] : list call, Ok tt)) = false ∧
    (AsPlotly sp ∈ trace ([] : list call, Ok tt) <-> P) ∧
    outcome ([] : list call, Ok tt) = Ok tt).
  { intros P HP. split; [done|]. split; [|done].
    split; [by intros ?%elem_of_nil|done]. }
  destruct (response !! "status") as [s|] eqn:Hs;
    [|apply Hnone; by intros [(? & [=] & _) _]].
  destruct imb as [im|]; [|apply Hnone; by intros [_ (? & [=] & _)]].
  destruct (bool_decide (s ∈ _)) eqn:Hfin; cycle 1.
  { apply Hnone. intros [(s' & [= <-] & Hs') _].
    apply finished_status in Hs'. congruence. }
  apply finished_status in Hfin.
  destruct (is_optimization im) eqn:Hopt; cycle 1.
  { apply Hnone. intros [_ (im' & [= <-] & Hopt')]. congruence. }
  simpl. split; [done|]. split; [|done]. split; [intros _|].
  - split; [by exists s|by exists im].
  - intros _. apply list_elem_of_here.
Qed.

Lemma no_data_no_chart_witness :
  let run := show_search_plot Page response_optimal (Some progress_no_data)
               (Some optimization_model) in
  existsb is_plot (trace run) = false ∧
  (AsPlotly progress_no_data ∈ trace run <->
     status_finished response_optimal ∧
     is_optimization_model (Some optimization_model)) ∧
  outcome run = Ok tt.
Proof.
  apply (no_data_no_chart Page response_optimal progress_no_data
           (Some optimization_model)).
  reflexivity.
Defined.

(** C7, as stated, fails: on a finished optimization run whose search
    progress has no data point, [as_plotly] is called all the same. *)
Lemma as_plotly_called_without_data :
  data_points progress_no_data = [] ∧
  ¬ (AsPlotly progress_no_data ∉
       trace (show_search_plot Page response_optimal (Some progress_no_data)
                (Some optimization_model))).
Proof.
  split; [reflexivity|]. intros Hno. apply Hno.
  vm_compute. apply list_elem_of_here.
Qed.

(** ** Floats as text *)

Lemma float_of_string_error s e :
  Py.float_of_string s = inr e -> e = Py.ValueError s.
Proof.
  unfold Py.float_of_string.
  destruct (Py.ascii_text s) as [text|]; [|by intros [= <-]].
  destruct (Py.read_sign _) as [neg body].
  destruct (_ || _); [done|]. destruct (bool_decide _); [done|].
  destruct (Py.read_number body) as [[[ip fp] r]|]; [|by intros [= <-]].
  destruct (Py.read_exponent r); [done|by intros [= <-]].
Qed.


Lemma digit_char_is_digit d : 0 <= d < 10 -> Py.is_digit (Py.digit_char d) = true.
Proof.
  intros Hd. unfold Py.is_digit, Py.digit_char.
  rewrite nat_ascii_embedding by lia.
  apply andb_true_intro; split; apply Nat.leb_le; lia.
Qed.

Lemma all_digits_uint d : all_digits (NilEmpty.string_of_uint d) = true.
Proof. induction d; simpl; auto. Qed.

Lemma int_digits_shape q :
  Py.int_digits q ≠ "" ∧ all_digits (Py.int_digits q) = true.
Proof.
  unfold Py.int_digits, NilZero.string_of_uint.
  destruct (N.to_uint (Z.to_N q)) eqn:Hd; try done.
  all: split; [done|]; rewrite <- Hd at 1; try apply all_digits_uint.
Qed.

Lemma append_assoc (a b c : string) : (a +:+ b) +:+ c = a +:+ b +:+ c.
Proof.
  induction a as [|x a IH]; [done|].
  change (String x ((a +:+ b) +:+ c) = String x (a +:+ b +:+ c)).
  by rewrite IH.
Qed.

Lemma append_nil_r (a : string) : a +:+ "" = a.
Proof.
  induction a as [|x a IH]; [done|].
  change (String x (a +:+ "") = String x a). by rewrite IH.
Qed.

(** A finite float printed with [.2f] has exactly two decimals. *)
Lemma format_f_two_decimals neg m e :
  two_decimal_percent (Py.format_f 2 (Py.Fin neg m e) +:+ "%").
Proof.
  unfold Py.format_f. set (q := if 0 <=? e then _ else _).
  destruct (int_digits_shape (q / 10 ^ Z.of_nat 2)) as [Hne Hdig].
  set (r := q mod 10 ^ Z.of_nat 2).
  exists (if neg then "-" else ""), (Py.int_digits (q / 10 ^ Z.of_nat 2)),
    (Py.digit_char (r / 10 mod 10)), (Py.digit_char (r mod 10)).
  split; [|split; [by destruct neg; auto|]].
  - simpl Py.frac_digits. fold r. by rewrite !append_assoc.
  - repeat split; try done; apply digit_char_is_digit;
      apply Z.mod_pos_bound; lia.
Qed.

Lemma format_f_zero e :
  Py.format_f 2 (zero e) = "0.00".
Proof.
  unfold Py.format_f, zero. destruct (Z.leb_spec 0 e); [done|].
  unfold Py.round_half_even. change (Z.of_N 0 * 10 ^ Z.of_nat 2) with 0.
  rewrite Z.div_0_l, Z.mod_0_l by lia.
  assert (0 < 2 ^ (- e)) by (apply Z.pow_pos_nonneg; lia).
  replace (2 * 0 ?= 2 ^ (- e)) with Lt
    by (symmetry; apply Z.compare_lt_iff; lia).
  reflexivity.
Qed.

Lemma nan_percent_has_no_decimals : ¬ two_decimal_percent "nan%".
Proof.
  intros (sign & ip & d1 & d2 & Heq & [->| ->] & Hne & Hdig & _).
  - destruct ip as [|c ip]; [done|]. simpl in Heq.
    injection Heq as <- _. done.
  - done.
Qed.

(** [float] and [format] on a few texts, as Python has them. *)
Example float_tenth :
  Py.float_of_string "0.1" = inl (Py.Fin false 7205759403792794 (-56)).
Proof. vm_compute. reflexivity. Qed.

Example float_inf : Py.float_of_string "inf" = inl (Py.Inf false).
Proof. vm_compute. reflexivity. Qed.

Example float_minus_infinity :
  Py.float_of_string " -Infinity " = inl (Py.Inf true).
Proof. vm_compute. reflexivity. Qed.

Example float_NA : Py.float_of_string "NA" = inr (Py.ValueError "NA").
Proof. vm_compute. reflexivity. Qed.

Example float_empty : Py.float_of_string "" = inr (Py.ValueError "").
Proof. vm_compute. reflexivity. Qed.

Example float_overflow : Py.float_of_string "1e400" = inl (Py.Inf false).
Proof. vm_compute. reflexivity. Qed.

Example format_underscores :
  (f ← float " 1_000.5e-1 "; Ok (Py.format_f 2 f)) = Ok "100.05".
Proof. vm_compute. reflexivity. Qed.

Example format_half_even :
  Py.format_f 2 <$> [Py.Fin false 1 (-3); Py.Fin false 3 (-3)]
  = ["0.12"; "0.38"].
Proof. vm_compute. reflexivity. Qed.

Example format_walltime :
  (f ← float "0.0005"; Ok (Py.format_f 3 f +:+ "s")) = Ok "0.001s".
Proof. vm_compute. reflexivity. Qed.

Example format_negative_zero : Py.format_f 2 (Py.Fin true 0 0) = "-0.00".
Proof. vm_compute. reflexivity. Qed.

(** [float] strips the blanks of [Py_ISSPACE] only, and reads the decimal
    digits and blanks of Unicode. *)
Example float_separator_rejected :
  Py.float_of_string (String "028" "1.5")
  = inr (Py.ValueError (String "028" "1.5")).
Proof. vm_compute. reflexivity. Qed.

Example float_fullwidth_digits :
  Py.float_of_string
    (String "239" (String "188" (String "145"
      (String "239" (String "188" (String "146" "")))))) =
  Py.float_of_string "12".
Proof. vm_compute. reflexivity. Qed.

Example float_no_break_space :
  Py.float_of_string (String "194" (String "160" "1.5"))
  = Py.float_of_string "1.5".
Proof. vm_compute. reflexivity. Qed.

Example float_twelve :
  Py.float_of_string "12" = inl (Py.Fin false 6755399441055744 (-49)).
Proof. vm_compute. reflexivity. Qed.

Example repr_status : repr "status" = "'status'".
Proof. vm_compute. reflexivity. Qed.

Example replace_leftmost : replace "aa" "b" "aaaaa" = "bba".
Proof. vm_compute. reflexivity. Qed.

(** ** The objective metrics *)

(** The text of a response field as the metric shows it: the float, or
    [None] when [float] rejects the text. *)
Lemma parse_field (response : gmap string string) k v :
  response !! k = Some v ->
  except_ValueError
    (o ← getitem response k; f ← float o; mret (Py.VFloat f)) Py.VNone
  = Ok match Py.float_of_string v with
       | inl f => Py.VFloat f
       | inr _ => Py.VNone
       end.
Proof.
  intros Hk. destruct (getitem_Some _ _ _ Hk) as [_ ->].
  cbn [mbind result_bind]. unfold float.
  destruct (Py.float_of_string v) as [f|e] eqn:Hf; [done|].
  by rewrite (float_of_string_error _ _ Hf).
Qed.

Lemma missing_field (response : gmap string string) k :
  response !! k = None ->
  except_ValueError
    (o ← getitem response k; f ← float o; mret (Py.VFloat f)) Py.VNone
  = Raise (Py.KeyError k).
Proof. intros Hk. by destruct (getitem_None _ _ Hk) as [_ ->]. Qed.

(** The gap as the metric shows it, from the result of the accessor. *)
Lemma show_objective_metrics_gap st_ response rb o bd :
  response !! "objective" = Some o ->
  response !! "best_bound" = Some bd ->
  ∃ m1 m2,
    show_objective_metrics st_ response rb =
    match except_ValueError
            match rb with Some b => get_gap b | None => Ok None end None with
    | Ok gap =>
        ([Columns st_ 3; Metric (Column st_ 0) m1; Metric (Column st_ 1) m2;
          Metric (Column st_ 2)
            (plain "Gap"
               match gap with
               | Some g => Py.VStr (Py.format_f 2 g +:+ "%")
               | None => Py.VNone
               end gap_help)],
         Ok tt)
    | Raise e =>
        ([Columns st_ 3; Metric (Column st_ 0) m1; Metric (Column st_ 1) m2],
         Raise e)
    end ∧ label m1 = "Objective" ∧ label m2 = "Best bound".
Proof.
  intros Ho Hb. unfold show_objective_metrics.
  rewrite (parse_field _ _ _ Ho), (parse_field _ _ _ Hb).
  eexists _, _. split.
  { rewrite emit_bind, eval_ok_bind, emit_bind, eval_ok_bind, emit_bind.
    destruct (except_ValueError _ _); reflexivity. }
  split; reflexivity.
Qed.

Lemma metric_value_here l target m tr :
  label m = l -> metric_value l (Metric target m :: tr) = Some (value m).
Proof.
  intros Hl. unfold metric_value. cbn [metrics omap list_omap].
  rewrite filter_cons_True by done. reflexivity.
Qed.

Lemma metric_value_next l target m tr :
  label m ≠ l -> metric_value l (Metric target m :: tr) = metric_value l tr.
Proof.
  intros Hl. unfold metric_value. cbn [metrics omap list_omap].
  by rewrite filter_cons_False by done.
Qed.

Lemma metric_value_columns l target n tr :
  metric_value l (Columns target n :: tr) = metric_value l tr.
Proof. reflexivity. Qed.

(** C5, as the code has it. When the objective field is a token that [float]
    rejects, the objective metric shows [None], and no exception of
    [show_objective_metrics] comes from the objective: one can only come from
    a missing best bound or from the gap accessor. *)
Theorem rejected_objective_unavailable (st_ : container)
    (response : gmap string string) (rb : option ResponseBlock)
    (o : string) (e : Py.exn) :
  response !! "objective" = Some o ->
  Py.float_of_string o = inr e ->
  let run := show_objective_metrics st_ response rb in
  metric_value "Objective" (trace run) = Some Py.VNone ∧
  ∀ e', outcome run = Raise e' ->
    e' = Py.KeyError "best_bound" ∨ ∃ b, rb = Some b ∧ get_gap b = Raise e'.
Proof.
  intros Ho Hf run.
  destruct (response !! "best_bound") as [bd|] eqn:Hb.
  - destruct (show_objective_metrics_gap st_ response rb o bd Ho Hb)
      as (m1 & m2 & Hrun & Hm1 & Hm2).
    assert (Hv : value m1 = Py.VNone).
    { revert Hrun. unfold show_objective_metrics.
      rewrite (parse_field _ _ _ Ho), Hf, emit_bind, eval_ok_bind, emit_bind.
      destruct (except_ValueError _ _); intros [= <- _]; done. }
    subst run. rewrite Hrun. split.
    + destruct (except_ValueError _ _); cbn [trace fst];
        rewrite metric_value_columns, metric_value_here by done;
        by rewrite Hv.
    + intros e'. destruct rb as [b|]; [|done].
      destruct (get_gap b) as [g|[k|a]] eqn:Hg; try done.
      intros [= <-]. right. by exists b.
  - subst run. unfold show_objective_metrics.
    rewrite (parse_field _ _ _ Ho), Hf, (missing_field _ _ Hb).
    rewrite emit_bind, eval_ok_bind, emit_bind. cbn [trace outcome fst snd].
    split; [by rewrite metric_value_columns, metric_value_here|].
    intros e' [= <-]. by left.
Qed.

Lemma rejected_objective_unavailable_witness :
  let run := show_objective_metrics Page (to_dict response_NA_objective)
               (Some response_NA_objective) in
  metric_value "Objective" (trace run) = Some Py.VNone ∧
  ∀ e', outcome run = Raise e' ->
    e' = Py.KeyError "best_bound" ∨
    ∃ b, Some response_NA_objective = Some b ∧ get_gap b = Raise e'.
Proof.
  apply (rejected_objective_unavailable Page (to_dict response_NA_objective)
           (Some response_NA_objective) "NA" (Py.ValueError "NA")).
  - vm_compute. reflexivity.
  - vm_compute. reflexivity.
Defined.

(** C5, as stated, fails: the token [inf] is a float for Python, and the
    objective metric shows infinity, not [None]. *)
Lemma inf_objective_is_shown :
  to_dict response_inf_objective !! "objective" = Some "inf" ∧
  metric_value "Objective"
    (trace (show_objective_metrics Page (to_dict response_inf_objective)
              (Some response_inf_objective)))
  ≠ Some Py.VNone.
Proof. split; [vm_compute; reflexivity|vm_compute; discriminate]. Qed.

(** C9, as the code has it. The gap metric is a function of what the block's
    own accessor returns, whatever the objective and best bound fields hold:
    a float [g] is shown as [g] in [.2f] format followed by a percent sign,
    which for a finite [g] has exactly two decimals and for a zero gap reads
    0.00%; [None] or a [ValueError] from the accessor shows [None]. *)
Theorem gap_from_accessor (st_ : container) (response : gmap string string)
    (b : ResponseBlock) (o bd : string) :
  response !! "objective" = Some o ->
  response !! "best_bound" = Some bd ->
  let shown := metric_value "Gap"
                 (trace (show_objective_metrics st_ response (Some b))) in
  (∀ g, get_gap b = Ok (Some g) ->
     shown = Some (Py.VStr (Py.format_f 2 g +:+ "%"))) ∧
  (∀ neg m e, get_gap b = Ok (Some (Py.Fin neg m e)) ->
     ∃ text, shown = Some (Py.VStr text) ∧ two_decimal_percent text) ∧
  (∀ e, get_gap b = Ok (Some (zero e)) -> shown = Some (Py.VStr "0.00%")) ∧
  (get_gap b = Ok None ∨ (∃ a, get_gap b = Raise (Py.ValueError a)) ->
     shown = Some Py.VNone).
Proof.
  intros Ho Hb shown.
  destruct (show_objective_metrics_gap st_ response (Some b) o bd Ho Hb)
    as (m1 & m2 & Hrun & Hm1 & Hm2).
  assert (Hshown : ∀ gap, except_ValueError (get_gap b) None = Ok gap ->
    shown = Some match gap with
                 | Some g => Py.VStr (Py.format_f 2 g +:+ "%")
                 | None => Py.VNone
                 end).
  { intros gap Hgap. subst shown. rewrite Hrun, Hgap. cbn [trace fst].
    rewrite metric_value_columns.
    rewrite !metric_value_next by (rewrite ?Hm1, ?Hm2; done).
    by rewrite metric_value_here. }
  assert (Hfloat : ∀ g, get_gap b = Ok (Some g) ->
    shown = Some (Py.VStr (Py.format_f 2 g +:+ "%"))).
  { intros g Hg. apply (Hshown (Some g)). by rewrite Hg. }
  split; [done|]. split; [|split].
  - intros neg m e Hg. eexists; split; [by apply Hfloat|].
    apply format_f_two_decimals.
  - intros e Hg. rewrite (Hfloat _ Hg). by rewrite format_f_zero.
  - intros [Hg|[a Hg]]; apply (Hshown None); by rewrite Hg.
Qed.

Lemma gap_from_accessor_witness :
  let shown := metric_value "Gap"
                 (trace (show_objective_metrics Page response_optimal
                           (Some response_zero_gap))) in
  (∀ g, get_gap response_zero_gap = Ok (Some g) ->
     shown = Some (Py.VStr (Py.format_f 2 g +:+ "%"))) ∧
  (∀ neg m e, get_gap response_zero_gap = Ok (Some (Py.Fin neg m e)) ->
     ∃ text, shown = Some (Py.VStr text) ∧ two_decimal_percent text) ∧
  (∀ e, get_gap response_zero_gap = Ok (Some (zero e)) ->
     shown = Some (Py.VStr "0.00%")) ∧
  (get_gap response_zero_gap = Ok None ∨
   (∃ a, get_gap response_zero_gap = Raise (Py.ValueError a)) ->
     shown = Some Py.VNone).
Proof.
  apply (gap_from_accessor Page response_optimal response_zero_gap "10" "10").
  - vm_compute. reflexivity.
  - vm_compute. reflexivity.
Defined.

(** C9, as stated, fails: a gap that is not a number is available, and is
    shown as nan%, without decimals. *)
Lemma nan_gap_has_no_decimals :
  get_gap response_nan_gap = Ok (Some Py.NaN) ∧
  ¬ ∃ text,
      metric_value "Gap"
        (trace (show_objective_metrics Page (to_dict response_nan_gap)
                  (Some response_nan_gap)))
      = Some (Py.VStr text) ∧
      two_decimal_percent text.
Proof.
  split; [reflexivity|]. intros (text & Hshown & Htext).
  vm_compute in Hshown. injection Hshown as <-.
  by apply nan_percent_has_no_decimals.
Qed.

(** ** The whole page *)

Lemma bind_returns {B} (m : UI unit) (f : unit -> UI B) :
  outcome m = Ok tt -> m ≫= f = (trace m ++ trace (f tt), outcome (f tt)).
Proof.
  destruct m as [tr r]. intros H. change (r = Ok tt) in H. subst r.
  by rewrite (bind_ok _ _ tr tt).
Qed.

Lemma show_parameters_returns st_ sb :
  outcome (show_parameters st_ sb) = Ok tt.
Proof.
  destruct sb as [b|]; [|done]. unfold show_parameters.
  by destruct (bool_decide _).
Qed.


(** The body is the solver part followed by the status metrics and what comes
    after them. *)
Lemma overview_body_solver_part parser :
  ∃ rest : UI unit,
    overview_body parser =
    (solver_calls parser ++
       trace (show_status_metrics Page (response_of parser)
                (get_block_of_type_or_none is_SearchProgressBlock parser)
              ≫= fun _ => rest),
     outcome (show_status_metrics Page (response_of parser)
                (get_block_of_type_or_none is_SearchProgressBlock parser)
              ≫= fun _ => rest)).
Proof.
  eexists. unfold overview_body, solver_calls, response_of.
  rewrite emit_bind.
  rewrite (bind_returns (add_version_gadget _ _))
    by apply add_version_gadget_returns.
  rewrite (bind_returns (add_number_of_workers_gadget _ _))
    by apply add_number_of_workers_gadget_returns.
  rewrite (bind_returns (show_parameters _ _))
    by apply show_parameters_returns.
  cbn [trace outcome fst snd]. rewrite <- app_comm_cons, <- !app_assoc.
  reflexivity.
Qed.

Lemma show_status_metrics_no_status st_ (response : gmap string string) spb :
  response !! "status" = None ->
  show_status_metrics st_ response spb
  = ([Columns st_ 3], Raise (Py.KeyError "status")).
Proof.
  intros Hs. unfold show_status_metrics.
  destruct (getitem_None _ _ Hs) as [_ ->]. by rewrite emit_bind.
Qed.

Lemma show_status_metrics_bad_walltime st_ (response : gmap string string)
    spb s w e :
  response !! "status" = Some s ->
  response !! "walltime" = Some w ->
  Py.float_of_string w = inr e ->
  show_status_metrics st_ response spb
  = ([Columns st_ 3;
      Metric (Column st_ 0) (plain "Status" (Py.VStr s) status_help)],
     Raise (Py.ValueError w)).
Proof.
  intros Hs Hw Hf. unfold show_status_metrics.
  destruct (getitem_Some _ _ _ Hs) as [_ ->].
  destruct (getitem_Some _ _ _ Hw) as [-> ->].
  rewrite emit_bind, eval_ok_bind, emit_bind.
  cbn [mbind result_bind]. unfold float. rewrite Hf.
  by rewrite (float_of_string_error _ _ Hf).
Qed.

Lemma show_overview_eq parser :
  show_overview parser =
  (Subheader "Overview" true :: comment_calls (comments parser) ++
     trace (guarded_body parser),
   outcome (guarded_body parser)).
Proof.
  unfold show_overview, comment_calls. fold (guarded_body parser).
  by destruct (bool_decide _), (guarded_body parser) as [tr r].
Qed.

(** The labels of the solver part. *)
Lemma labels_app tr1 tr2 : labels (tr1 ++ tr2) = labels tr1 ++ labels tr2.
Proof. unfold labels, metrics. by rewrite omap_app, fmap_app. Qed.

Lemma labels_solver_calls parser :
  labels (solver_calls parser) = ["CP-SAT Version"; "Number of workers"].
Proof.
  unfold solver_calls.
  destruct (get_block_of_type_or_none is_SolverBlock parser) as [b|];
    [|reflexivity].
  unfold add_version_gadget, show_parameters.
  destruct (get_parsed_version b) as [[major minor] patch].
  by destruct (_ || _), (bool_decide _).
Qed.

Lemma labels_comment_calls cs : labels (comment_calls cs) = [].
Proof. unfold comment_calls. by destruct (bool_decide _). Qed.

Lemma metric_value_absent l tr : l ∉ labels tr -> metric_value l tr = None.
Proof.
  unfold metric_value, labels. intros Hl.
  destruct (filter _ (metrics tr)) as [|m ms] eqn:Hfil; [done|].
  exfalso. apply Hl.
  assert (Hm : m ∈ filter (fun m => label m = l) (metrics tr))
    by (rewrite Hfil; apply list_elem_of_here).
  apply list_elem_of_filter in Hm as [<- Hm].
  by apply list_elem_of_fmap_2.
Qed.

(** No function of the body writes a comment. *)

Local Ltac quiet_step :=
  first
    [ apply List.Forall_nil
    | apply List.Forall_cons; [reflexivity|]
    | apply Forall_trace_bind; [|intros ?] ].

Lemma quiet_emit c : quiet c -> Forall quiet (trace (emit c)).
Proof. intros Hc. by apply List.Forall_cons. Qed.

Lemma quiet_eval {A} (r : result A) : Forall quiet (trace (eval r)).
Proof. apply List.Forall_nil. Qed.

Lemma quiet_skip : Forall quiet (trace skip).
Proof. apply List.Forall_nil. Qed.

Lemma quiet_add_version_gadget st_ sb :
  Forall quiet (trace (add_version_gadget st_ sb)).
Proof.
  destruct sb as [b|]; [|by apply quiet_emit]. unfold add_version_gadget.
  destruct (get_parsed_version b) as [[major minor] patch].
  destruct (_ || _); by apply quiet_emit.
Qed.

Lemma quiet_show_parameters st_ sb :
  Forall quiet (trace (show_parameters st_ sb)).
Proof.
  destruct sb as [b|]; [|apply quiet_skip]. unfold show_parameters.
  destruct (bool_decide _); [|apply quiet_skip].
  repeat quiet_step; by apply quiet_emit.
Qed.

Lemma quiet_show_status_metrics st_ response spb :
  Forall quiet (trace (show_status_metrics st_ response spb)).
Proof.
  unfold show_status_metrics.
  repeat quiet_step; first [by apply quiet_emit|apply quiet_eval].
Qed.

Lemma quiet_show_model_metrics st_ imb :
  Forall quiet (trace (show_model_metrics st_ imb)).
Proof.
  unfold show_model_metrics. repeat quiet_step; by apply quiet_emit.
Qed.

Lemma quiet_show_objective_metrics st_ response rb :
  Forall quiet (trace (show_objective_metrics st_ response rb)).
Proof.
  unfold show_objective_metrics.
  repeat quiet_step; first [by apply quiet_emit|apply quiet_eval].
Qed.

Lemma quiet_show_search_plot st_ response spb imb :
  Forall quiet (trace (show_search_plot st_ response spb imb)).
Proof.
  rewrite show_search_plot_cases.
  destruct (response !! "status"), spb as [sp|], imb as [im|];
    try apply List.Forall_nil.
  destruct (_ && _); [|apply List.Forall_nil].
  destruct (data_points sp); repeat quiet_step.
Qed.

Lemma quiet_overview_body parser : Forall quiet (trace (overview_body parser)).
Proof.
  unfold overview_body.
  apply Forall_trace_bind; [by apply quiet_emit|intros _].
  apply Forall_trace_bind; [apply quiet_add_version_gadget|intros _].
  apply Forall_trace_bind; [by apply quiet_emit|intros _].
  apply Forall_trace_bind; [apply quiet_show_parameters|intros _].
  apply Forall_trace_bind; [apply quiet_show_status_metrics|intros _].
  apply Forall_trace_bind; [apply quiet_show_model_metrics|intros _].
  apply Forall_trace_bind; [apply quiet_show_objective_metrics|intros _].
  apply Forall_trace_bind; [apply quiet_show_search_plot|intros _].
  destruct (get_block_of_type_or_none is_PresolveSummaryBlock parser)
    as [b|]; [|apply quiet_skip].
  destruct (is_solved_by_presolve b); [by apply quiet_emit|apply quiet_skip].
Qed.

Lemma quiet_guarded_body parser : Forall quiet (trace (guarded_body parser)).
Proof.
  unfold guarded_body, except_KeyError.
  pose proof (quiet_overview_body parser) as Hq.
  destruct (overview_body parser) as [tr [[]|[k|a]]]; try done.
  apply Forall_app; split; [done|]. by apply quiet_emit.
Qed.

Lemma quiet_existsb tr : Forall quiet tr -> existsb is_comment tr = false.
Proof.
  induction 1 as [|c tr Hc _ IH]; [done|]. simpl. by rewrite Hc, IH.
Qed.

(** ** The comment text *)

Lemma concat_map_app f a b :
  concat_map f (a +:+ b) = concat_map f a +:+ concat_map f b.
Proof.
  induction a as [|x a IH]; [done|].
  change (f x +:+ concat_map f (a +:+ b)
          = (f x +:+ concat_map f a) +:+ concat_map f b).
  by rewrite IH, append_assoc.
Qed.

(** Replacing a single character is a character-wise map. *)
Lemma replace_char c new s :
  replace (String c "") new s =
  concat_map (fun x => if bool_decide (x = c) then new else String x "") s.
Proof.
  unfold replace. induction s as [|x s IH]; [done|].
  cbn [replace_from concat_map String.prefix String.length].
  rewrite <- IH.
  destruct (Ascii.ascii_dec c x) as [->|Hne].
  - rewrite bool_decide_eq_true_2 by done. by destruct s.
  - by rewrite bool_decide_eq_false_2 by congruence.
Qed.

Lemma comment_text_displayed cs : comment_text cs = displayed_comment cs.
Proof.
  unfold comment_text, displayed_comment.
  rewrite (replace_char "\"), (replace_char "["), (replace_char "]").
  change (fun x => if bool_decide (x = "\"%char) then "" else String x "")
    with delete_backslash.
  generalize (concat_map delete_backslash (String.concat newline cs)).
  intros s. induction s as [|x s IH]; [done|].
  cbn [concat_map]. rewrite concat_map_app, IH. f_equal.
  unfold escape_bracket.
  destruct (bool_decide (x = "["%char)) eqn:H1; [done|].
  cbn [concat_map]. rewrite append_nil_r.
  by destruct (bool_decide (x = "]"%char)).
Qed.

(** ** Reports that stop early *)

(** Without a status the body stops after the solver part. *)
Lemma overview_body_no_status parser :
  response_of parser !! "status" = None ->
  overview_body parser =
  (solver_calls parser ++ [Columns Page 3], Raise (Py.KeyError "status")).
Proof.
  intros Hs. destruct (overview_body_solver_part parser) as [rest ->].
  by rewrite (show_status_metrics_no_status _ _ _ Hs).
Qed.

Lemma show_overview_no_status parser :
  response_of parser !! "status" = None ->
  show_overview parser =
  (Subheader "Overview" true :: comment_calls (comments parser) ++
     solver_calls parser ++
     [Columns Page 3; Error (incomplete_log "status")],
   Ok tt).
Proof.
  intros Hs. rewrite show_overview_eq. unfold guarded_body.
  rewrite (overview_body_no_status _ Hs).
  cbn [except_KeyError emit trace outcome fst snd].
  by rewrite <- app_assoc.
Qed.

Lemma no_block_of_kind {A} (kind : Block -> option A) cs titles :
  (∀ t, kind (BOther t) = None) ->
  get_block_of_type_or_none kind
    {| comments := cs; blocks := BOther <$> titles |} = None.
Proof.
  intros Hk. unfold get_block_of_type_or_none. cbn [blocks].
  induction titles as [|t ts IH]; [done|].
  cbn [fmap list_fmap omap list_omap]. by rewrite Hk.
Qed.

(** C1, as the code has it. On a log with none of the five block kinds the
    version metric shows "N/A" and the worker count shows [None]; then the
    status lookup in the empty response mapping raises [KeyError], the rest
    of the report is not produced, and the page ends with the error box that
    names the key. *)
Theorem no_blocks_report (cs : list string) (titles : list string) :
  let parser := {| comments := cs; blocks := BOther <$> titles |} in
  outcome (overview_body parser) = Raise (Py.KeyError "status") ∧
  show_overview parser =
  (Subheader "Overview" true :: comment_calls cs ++
     [Columns Page 2;
      Metric (Column Page 0)
        {| label := "CP-SAT Version"; value := Py.VStr "N/A";
           help := version_help; delta := None; delta_color := "inverse" |};
      Metric (Column Page 1)
        (plain "Number of workers" Py.VNone workers_help);
      Columns Page 3;
      Error (incomplete_log "status")],
   Ok tt).
Proof.
  intros parser.
  assert (Hs : response_of parser !! "status" = None).
  { unfold response_of, parser. by rewrite no_block_of_kind. }
  split; [by rewrite (overview_body_no_status _ Hs)|].
  rewrite (show_overview_no_status _ Hs). unfold solver_calls, parser.
  by rewrite no_block_of_kind.
Qed.

(** C1, as stated, fails: on the log with no block the report is not the
    all-unknown report, it ends in the error box. *)
Lemma no_blocks_report_is_error :
  blocks empty_log = [] ∧ ¬ unknown_report (show_overview empty_log).
Proof.
  split; [reflexivity|]. intros (Herr & _).
  vm_compute in Herr. discriminate.
Qed.

(** C3, as the code has it. When the response block is present but has no
    status field, the body raises [KeyError] on [status], and the page ends
    with the error box that names the key. What was drawn before stays: the
    comments and the solver part, whose two metrics are the only metrics of
    the page. *)
Theorem missing_status_aborts (parser : LogParser) (b : ResponseBlock) :
  get_block_of_type_or_none is_ResponseBlock parser = Some b ->
  to_dict b !! "status" = None ->
  outcome (overview_body parser) = Raise (Py.KeyError "status") ∧
  show_overview parser =
  (Subheader "Overview" true :: comment_calls (comments parser) ++
     solver_calls parser ++
     [Columns Page 3; Error (incomplete_log "status")],
   Ok tt) ∧
  labels (trace (show_overview parser))
  = ["CP-SAT Version"; "Number of workers"] ∧
  incomplete_log "status" =
  "Error parsing information. Log seems to be incomplete: 'status'. Make sure you enter the full log without any modifications. The parser is sensitive to new lines.".
Proof.
  intros Hb Hstatus.
  assert (Hs : response_of parser !! "status" = None).
  { unfold response_of. by rewrite Hb. }
  split; [by rewrite (overview_body_no_status _ Hs)|].
  rewrite (show_overview_no_status _ Hs). split; [done|]. split; [|done].
  cbn [trace fst].
  change (Subheader "Overview" true :: ?l) with ([Subheader "Overview" true] ++ l).
  by rewrite !labels_app, labels_comment_calls, labels_solver_calls.
Qed.

Lemma missing_status_aborts_witness :
  outcome (overview_body log_no_status) = Raise (Py.KeyError "status") ∧
  show_overview log_no_status =
  (Subheader "Overview" true :: comment_calls (comments log_no_status) ++
     solver_calls log_no_status ++
     [Columns Page 3; Error (incomplete_log "status")],
   Ok tt) ∧
  labels (trace (show_overview log_no_status))
  = ["CP-SAT Version"; "Number of workers"] ∧
  incomplete_log "status" =
  "Error parsing information. Log seems to be incomplete: 'status'. Make sure you enter the full log without any modifications. The parser is sensitive to new lines.".
Proof.
  apply (missing_status_aborts log_no_status response_no_status).
  - reflexivity.
  - vm_compute. reflexivity.
Defined.

(** C3, as stated, fails: the response block of this log has no status, and
    metric entries are on the page when the report stops. *)
Lemma metrics_drawn_before_abort :
  get_block_of_type_or_none is_ResponseBlock log_no_status
  = Some response_no_status ∧
  to_dict response_no_status !! "status" = None ∧
  metrics (trace (show_overview log_no_status)) ≠ [].
Proof.
  split; [reflexivity|]. split; vm_compute; [reflexivity|discriminate].
Qed.

(** C2 on the code: a wall time that [float] rejects. The [ValueError] is
    caught neither in [show_status_metrics] nor in [show_overview]: it leaves
    the page, and no Time metric is drawn. *)
Theorem walltime_error_escapes (parser : LogParser) (b : ResponseBlock)
    (s w : string) (e : Py.exn) :
  get_block_of_type_or_none is_ResponseBlock parser = Some b ->
  to_dict b !! "status" = Some s ->
  to_dict b !! "walltime" = Some w ->
  Py.float_of_string w = inr e ->
  outcome (show_overview parser) = Raise (Py.ValueError w) ∧
  metric_value "Time" (trace (show_overview parser)) = None.
Proof.
  intros Hb Hs Hw Hf.
  assert (Hbody : overview_body parser =
    (solver_calls parser ++
       [Columns Page 3;
        Metric (Column Page 0) (plain "Status" (Py.VStr s) status_help)],
     Raise (Py.ValueError w))).
  { destruct (overview_body_solver_part parser) as [rest ->].
    unfold response_of. rewrite Hb.
    by rewrite (show_status_metrics_bad_walltime _ _ _ s w e). }
  rewrite show_overview_eq. unfold guarded_body. rewrite Hbody.
  split; [done|]. cbn [except_KeyError trace outcome fst snd].
  apply metric_value_absent.
  change (Subheader "Overview" true :: ?l) with ([Subheader "Overview" true] ++ l).
  rewrite !labels_app, labels_comment_calls, labels_solver_calls.
  cbn. rewrite !elem_of_cons, elem_of_nil. by intros [?|[?|[?|[]]]].
Qed.

Lemma walltime_error_escapes_witness :
  outcome (show_overview log_bad_walltime) = Raise (Py.ValueError "abc") ∧
  metric_value "Time" (trace (show_overview log_bad_walltime)) = None.
Proof.
  apply (walltime_error_escapes log_bad_walltime response_bad_walltime
           "OPTIMAL" "abc" (Py.ValueError "abc")).
  - reflexivity.
  - vm_compute. reflexivity.
  - vm_compute. reflexivity.
  - vm_compute. reflexivity.
Defined.

(** C10. When there are comments, the chat message shows their lines joined
    by newlines, with every backslash deleted and then every opening bracket
    replaced by backslash-bracket-star and every closing bracket by
    star-backslash-bracket; nothing else on the page belongs to the
    comments. When there are no comments, no comment element is drawn at
    all. *)
Theorem comment_display (bs : list Block) :
  (∀ c cs, ∃ rest,
     trace (show_overview {| comments := c :: cs; blocks := bs |}) =
     Subheader "Overview" true :: ChatMessage "user" ::
     Write (Chat "user") (displayed_comment (c :: cs)) :: rest ∧
     existsb is_comment rest = false) ∧
  existsb is_comment
    (trace (show_overview {| comments := []; blocks := bs |})) = false.
Proof.
  split.
  - intros c cs. eexists. rewrite show_overview_eq.
    unfold comment_calls. cbn [comments trace fst].
    rewrite bool_decide_eq_true_2 by done.
    rewrite comment_text_displayed. split; [reflexivity|].
    apply quiet_existsb, quiet_guarded_body.
  - rewrite show_overview_eq. cbn [comments trace fst].
    apply (quiet_existsb (_ :: _)). apply List.Forall_cons; [done|].
    apply quiet_guarded_body.
Qed.

(** ** Each part, case by case *)

Lemma bind_raises {A B} (m : UI A) (f : A -> UI B) e :
  outcome m = Raise e -> m ≫= f = (trace m, Raise e).
Proof.
  destruct m as [tr r]. intros H. change (r = Raise e) in H. by subst r.
Qed.

Lemma field_value_parse (response : gmap string string) k v :
  response !! k = Some v ->
  except_ValueError
    (o ← getitem response k; f ← float o; mret (Py.VFloat f)) Py.VNone
  = Ok (field_value v).
Proof. apply parse_field. Qed.

(** What [show_status_metrics] does, by the status and wall time fields. *)
Lemma show_status_metrics_cases st_ (response : gmap string string) spb :
  show_status_metrics st_ response spb =
  let presolve :=
    Metric (Column st_ 2)
      (plain "Presolve"
         match spb with
         | Some b => Py.VStr (Py.format_f 3 (get_presolve_time b) +:+ "s")
         | None => Py.VNone
         end presolve_help) in
  match response !! "status" with
  | None => ([Columns st_ 3], Raise (Py.KeyError "status"))
  | Some s =>
      let status :=
        Metric (Column st_ 0) (plain "Status" (Py.VStr s) status_help) in
      match response !! "walltime" with
      | None =>
          ([Columns st_ 3; status;
            Metric (Column st_ 1) (plain "Time" Py.VNone time_help);
            presolve], Ok tt)
      | Some w =>
          match Py.float_of_string w with
          | inl t =>
              ([Columns st_ 3; status;
                Metric (Column st_ 1)
                  (plain "Time" (Py.VStr (Py.format_f 3 t +:+ "s")) time_help);
                presolve], Ok tt)
          | inr _ => ([Columns st_ 3; status], Raise (Py.ValueError w))
          end
      end
  end.
Proof.
  cbv zeta.
  destruct (response !! "status") as [s|] eqn:Hs;
    [|by apply show_status_metrics_no_status].
  destruct (response !! "walltime") as [w|] eqn:Hw.
  - destruct (Py.float_of_string w) as [t|e] eqn:Hf;
      [|by apply (show_status_metrics_bad_walltime _ _ _ s w e)].
    unfold show_status_metrics.
    destruct (getitem_Some _ _ _ Hs) as [_ ->].
    destruct (getitem_Some _ _ _ Hw) as [-> ->].
    rewrite emit_bind, eval_ok_bind, emit_bind.
    cbn [mbind result_bind]. unfold float. by rewrite Hf.
  - unfold show_status_metrics.
    destruct (getitem_Some _ _ _ Hs) as [_ ->].
    destruct (getitem_None _ _ Hw) as [-> _].
    by rewrite emit_bind, eval_ok_bind, emit_bind.
Qed.

(** What [show_objective_metrics] does, by the objective and best bound
    fields and the gap accessor. *)
Lemma show_objective_metrics_cases st_ (response : gmap string string) rb :
  show_objective_metrics st_ response rb =
  match response !! "objective" with
  | None => ([Columns st_ 3], Raise (Py.KeyError "objective"))
  | Some o =>
      let objective :=
        Metric (Column st_ 0)
          (plain "Objective" (field_value o)
             "Value of the best solution found.") in
      match response !! "best_bound" with
      | None => ([Columns st_ 3; objective], Raise (Py.KeyError "best_bound"))
      | Some bd =>
          let bound :=
            Metric (Column st_ 1)
              (plain "Best bound" (field_value bd)
                 "Bound on how good the best solution can be. If it matches the objective, the solution is optimal.") in
          match except_ValueError
                  match rb with Some b => get_gap b | None => Ok None end
                  None with
          | Ok gap =>
              ([Columns st_ 3; objective; bound;
                Metric (Column st_ 2)
                  (plain "Gap"
                     match gap with
                     | Some g => Py.VStr (Py.format_f 2 g +:+ "%")
                     | None => Py.VNone
                     end gap_help)], Ok tt)
          | Raise e => ([Columns st_ 3; objective; bound], Raise e)
          end
      end
  end.
Proof.
  cbv zeta. unfold show_objective_metrics.
  destruct (response !! "objective") as [o|] eqn:Ho; cycle 1.
  { by rewrite (missing_field _ _ Ho), emit_bind. }
  rewrite (field_value_parse _ _ _ Ho), emit_bind, eval_ok_bind, emit_bind.
  destruct (response !! "best_bound") as [bd|] eqn:Hb; cycle 1.
  { by rewrite (missing_field _ _ Hb). }
  rewrite (field_value_parse _ _ _ Hb), eval_ok_bind, emit_bind.
  by destruct (except_ValueError _ _).
Qed.

Lemma show_search_plot_returns st_ response spb imb :
  outcome (show_search_plot st_ response spb imb) = Ok tt.
Proof.
  rewrite show_search_plot_cases.
  destruct (response !! "status"), spb as [sp|], imb as [im|]; try done.
  destruct (_ && _); [|done]. by destruct (data_points sp).
Qed.

(** The body, part by part: it stops at the first part that raises. *)
Lemma overview_body_parts parser :
  overview_body parser =
  match outcome (status_part parser), outcome (objective_part parser) with
  | Raise e, _ =>
      (solver_calls parser ++ trace (status_part parser), Raise e)
  | Ok _, Raise e =>
      (solver_calls parser ++ trace (status_part parser) ++
         trace (model_part parser) ++ trace (objective_part parser),
       Raise e)
  | Ok _, Ok _ =>
      (solver_calls parser ++ trace (status_part parser) ++
         trace (model_part parser) ++ trace (objective_part parser) ++
         trace (plot_part parser) ++ presolve_calls parser,
       Ok tt)
  end.
Proof.
  unfold overview_body, solver_calls.
  fold (response_of parser). fold (status_part parser).
  fold (model_part parser). fold (objective_part parser).
  fold (plot_part parser).
  rewrite emit_bind.
  rewrite (bind_returns (add_version_gadget _ _))
    by apply add_version_gadget_returns.
  rewrite (bind_returns (add_number_of_workers_gadget _ _))
    by apply add_number_of_workers_gadget_returns.
  rewrite (bind_returns (show_parameters _ _))
    by apply show_parameters_returns.
  destruct (outcome (status_part parser)) as [[]|e] eqn:Hst; cycle 1.
  { rewrite (bind_raises _ _ e) by done.
    cbn [trace outcome fst snd]. rewrite <- app_comm_cons, <- !app_assoc.
    reflexivity. }
  rewrite (bind_returns (status_part parser)) by done.
  rewrite (bind_returns (model_part parser)) by reflexivity.
  destruct (outcome (objective_part parser)) as [[]|e] eqn:Hob; cycle 1.
  { rewrite (bind_raises _ _ e) by done.
    cbn [trace outcome fst snd]. rewrite <- app_comm_cons, <- !app_assoc.
    reflexivity. }
  rewrite (bind_returns (objective_part parser)) by done.
  rewrite (bind_returns (plot_part parser))
    by apply show_search_plot_returns.
  cbn [trace outcome fst snd]. rewrite <- app_comm_cons, <- !app_assoc.
  unfold presolve_calls.
  destruct (get_block_of_type_or_none is_PresolveSummaryBlock parser)
    as [b|]; [|reflexivity].
  by destruct (is_solved_by_presolve b).
Qed.

(** ** How the parts end *)

Lemma numeric_inl w f : Py.float_of_string w = inl f -> numeric w.
Proof. intros H. by exists f. Qed.

Lemma numeric_inr w e : Py.float_of_string w = inr e -> ¬ numeric w.
Proof. intros H [f Hf]. congruence. Qed.

(** X1. [show_status_metrics] returns normally exactly when the response has a
    status and its wall time, if any, is a number. Otherwise it raises: a
    [KeyError] for the missing status, or the [ValueError] of the wall time
    text. *)
Theorem status_metrics_outcome (st_ : container)
    (response : gmap string string) (spb : option SearchProgressBlock) :
  let run := show_status_metrics st_ response spb in
  (outcome run = Ok tt <->
     is_Some (response !! "status") ∧ walltime_ok response) ∧
  (∀ e, outcome run = Raise e <->
     (response !! "status" = None ∧ e = Py.KeyError "status") ∨
     (is_Some (response !! "status") ∧
      ∃ w, response !! "walltime" = Some w ∧ ¬ numeric w ∧
           e = Py.ValueError w)).
Proof.
  cbv zeta. rewrite show_status_metrics_cases. cbv zeta. unfold walltime_ok.
  destruct (response !! "status") as [s|] eqn:Hs; cycle 1.
  { split; [split; [done|by intros [[? [=]] _]]|]. intros e. split.
    - intros [= <-]. by left.
    - intros [[_ ->]|[[? [=]] _]]. done. }
  destruct (response !! "walltime") as [w|] eqn:Hw; cycle 1.
  { split; [split; [intros _; split; [by eexists|by intros ? [=]]|done]|].
    intros e. split; [done|]. intros [[[=] _]|[_ (? & [=] & _)]]. }
  destruct (Py.float_of_string w) as [t|e'] eqn:Hf.
  - split.
    + split; [intros _|done]. split; [by eexists|].
      intros ? [= <-]. by eapply numeric_inl.
    + intros e. split; [done|].
      intros [[[=] _]|[_ (? & [= <-] & Hn & _)]].
      destruct Hn. by eapply numeric_inl.
  - split.
    + split; [done|]. intros [_ Hn].
      by destruct (numeric_inr _ _ Hf (Hn _ eq_refl)).
    + intros e. split.
      * intros [= <-]. right. split; [by eexists|].
        exists w. split; [done|]. split; [by eapply numeric_inr|done].
      * intros [[[=] _]|[_ (? & [= <-] & _ & ->)]]. done.
Qed.

(** X2. [show_objective_metrics] returns normally exactly when the response
    has an objective and a best bound and the gap accessor raises no
    [KeyError]. It never raises a [ValueError]; a [KeyError] names the first
    missing field, objective before best bound, or comes from the gap
    accessor. *)
Theorem objective_metrics_outcome (st_ : container)
    (response : gmap string string) (rb : option ResponseBlock) :
  let run := show_objective_metrics st_ response rb in
  (outcome run = Ok tt <->
     is_Some (response !! "objective") ∧
     is_Some (response !! "best_bound") ∧ gap_ok rb) ∧
  (∀ a, outcome run ≠ Raise (Py.ValueError a)) ∧
  (∀ k, outcome run = Raise (Py.KeyError k) <->
     (response !! "objective" = None ∧ k = "objective") ∨
     (is_Some (response !! "objective") ∧
      response !! "best_bound" = None ∧ k = "best_bound") ∨
     (is_Some (response !! "objective") ∧
      is_Some (response !! "best_bound") ∧
      ∃ b, rb = Some b ∧ get_gap b = Raise (Py.KeyError k))).
Proof.
  cbv zeta. rewrite show_objective_metrics_cases. cbv zeta. unfold gap_ok.
  destruct (response !! "objective") as [o|] eqn:Ho; cycle 1.
  { split; [split; [done|by intros [[? [=]] _]]|]. split; [done|].
    intros k. split.
    - intros [= <-]. by left.
    - intros [[_ ->]|[([? [=]] & _)|([? [=]] & _)]]. done. }
  destruct (response !! "best_bound") as [bd|] eqn:Hb; cycle 1.
  { split; [split; [done|by intros (_ & [? [=]] & _)]|]. split; [done|].
    intros k. split.
    - intros [= <-]. right; left. split; [by eexists|done].
    - intros [[[=] _]|[(_ & _ & ->)|(_ & [? [=]] & _)]]. done. }
  destruct rb as [b|]; cycle 1.
  { split; [split; [intros _|done]|].
    - split; [by eexists|]. split; [by eexists|]. by intros ? ? [=].
    - split; [done|]. intros k. split; [done|].
      intros [[[=] _]|[(_ & [=] & _)|(_ & _ & ? & [=] & _)]]. }
  destruct (get_gap b) as [g|[k'|a']] eqn:Hg; cbn [except_ValueError].
  - split; [split; [intros _|done]|].
    + split; [by eexists|]. split; [by eexists|]. intros ? ? [= <-]; congruence.
    + split; [done|]. intros k. split; [done|].
      intros [[[=] _]|[(_ & [=] & _)|(_ & _ & ? & [= <-] & Hk)]]. congruence.
  - split; [split; [done|]|].
    + intros (_ & _ & Hgap). by destruct (Hgap b k' eq_refl).
    + split; [done|]. intros k. split.
      * intros [= <-]. right; right.
        split; [by eexists|]. split; [by eexists|]. by exists b.
      * intros [[[=] _]|[(_ & [=] & _)|(_ & _ & ? & [= <-] & Hk)]].
        cbn [outcome snd]. congruence.
  - split; [split; [intros _|done]|].
    + split; [by eexists|]. split; [by eexists|]. intros ? ? [= <-]; congruence.
    + split; [done|]. intros k. split; [done|].
      intros [[[=] _]|[(_ & [=] & _)|(_ & _ & ? & [= <-] & Hk)]]. congruence.
Qed.

(** ** The page, from the body *)

(** [show_overview] adds the header and the comments in front of the body and
    turns a [KeyError] of the body into an error box at the end. *)
Lemma show_overview_body parser :
  show_overview parser =
  (Subheader "Overview" true :: comment_calls (comments parser) ++
     trace (overview_body parser) ++
     match outcome (overview_body parser) with
     | Raise (Py.KeyError k) => [Error (incomplete_log k)]
     | _ => []
     end,
   match outcome (overview_body parser) with
   | Raise (Py.KeyError k) => Ok tt
   | r => r
   end).
Proof.
  rewrite show_overview_eq. unfold guarded_body, except_KeyError.
  destruct (overview_body parser) as [tr [[]|[k|a]]];
    cbn [trace outcome fst snd emit]; by rewrite ?app_nil_r.
Qed.

Lemma labels_model_part parser :
  labels (trace (model_part parser)) = ["Variables"; "Constraints"; "Type"].
Proof. reflexivity. Qed.

Lemma labels_plot_part parser : labels (trace (plot_part parser)) = [].
Proof.
  unfold plot_part. rewrite show_search_plot_cases.
  by repeat case_match.
Qed.

Lemma labels_presolve_calls parser : labels (presolve_calls parser) = [].
Proof. unfold presolve_calls. by repeat case_match. Qed.

Lemma labels_cons_other c tr :
  match c with Metric _ _ => False | _ => True end ->
  labels (c :: tr) = labels tr.
Proof. by destruct c. Qed.

Lemma except_ValueError_catches {A} (r : result A) dflt a :
  except_ValueError r dflt ≠ Raise (Py.ValueError a).
Proof. by destruct r as [x|[k|a']]. Qed.

(** Splits the page into its cases: which field is missing or malformed. *)
Local Ltac page_cases parser :=
  rewrite ?show_overview_body, ?overview_body_parts;
  unfold status_part, objective_part;
  rewrite ?show_status_metrics_cases, ?show_objective_metrics_cases;
  cbv zeta;
  let Hs := fresh "Hstatus" in
  let Hw := fresh "Hwalltime" in
  let Hf := fresh "Hfloat" in
  let Ho := fresh "Hobjective" in
  let Hb := fresh "Hbound" in
  let Hg := fresh "Hgap" in
  destruct (response_of parser !! "status") as [?s|] eqn:Hs;
    [destruct (response_of parser !! "walltime") as [?w|] eqn:Hw;
       [destruct (Py.float_of_string w) as [?t|?e] eqn:Hf|];
     [destruct (response_of parser !! "objective") as [?o|] eqn:Ho;
        [destruct (response_of parser !! "best_bound") as [?bd|] eqn:Hb;
           [destruct (except_ValueError _ _) as [?gap|[?k|?a]] eqn:Hg|]|]
     | |destruct (response_of parser !! "objective") as [?o|] eqn:Ho;
        [destruct (response_of parser !! "best_bound") as [?bd|] eqn:Hb;
           [destruct (except_ValueError _ _) as [?gap|[?k|?a]] eqn:Hg|]|]]
    |];
  try (by destruct (except_ValueError_catches _ _ _ Hg));
  cbn [trace outcome fst snd].

Local Ltac page_labels :=
  change (Subheader "Overview" true :: ?l)
    with ([Subheader "Overview" true] ++ l);
  rewrite ?labels_app, ?labels_comment_calls, ?labels_solver_calls,
    ?labels_model_part, ?labels_plot_part, ?labels_presolve_calls;
  cbn [app].

(** X3. The metric labels of any page are an initial part of the labels of
    the full report, in page order, and the two solver metrics are always
    among them: a report that stops early stops between metrics and never
    skips or reorders one. *)
Theorem page_labels_prefix (parser : LogParser) :
  labels (trace (show_overview parser)) `prefix_of` report_labels ∧
  2 <= Z.of_nat (length (labels (trace (show_overview parser)))).
Proof.
  page_cases parser; page_labels; cbn;
    (split; [eexists; reflexivity|lia]).
Qed.

Lemma gap_ok_catches (rb : option ResponseBlock) :
  gap_ok rb <->
  ∃ gap,
    except_ValueError
      match rb with Some b => get_gap b | None => Ok None end None
    = Ok gap.
Proof.
  unfold gap_ok. destruct rb as [b|]; cycle 1.
  { split; [by eexists|by intros _ ? ? [=]]. }
  destruct (get_gap b) as [g|[k|a]] eqn:Hg; cbn [except_ValueError].
  - split; [by eexists|]. intros _ ? ? [= <-]. congruence.
  - split; [|by intros [? [=]]]. intros Hno. by destruct (Hno b k).
  - split; [by eexists|]. intros _ ? ? [= <-]. congruence.
Qed.

(** X4. The only exception that leaves [show_overview] is the [ValueError]
    of a wall time that is not a number, and it does so exactly when the
    response has a status and such a wall time. A [KeyError] never leaves
    the page. *)
Theorem only_walltime_error_escapes (parser : LogParser) (e : Py.exn) :
  outcome (show_overview parser) = Raise e <->
  is_Some (response_of parser !! "status") ∧
  ∃ w, response_of parser !! "walltime" = Some w ∧ ¬ numeric w ∧
       e = Py.ValueError w.
Proof.
  page_cases parser.
  all: split;
    [ intros Hr;
      first
        [ discriminate Hr
        | injection Hr as <-; split; [by eexists|];
          eexists; split; [done|]; split; [by eapply numeric_inr|done] ]
    | intros [Hst (w' & Hw' & Hn & ->)];
      first
        [ by destruct Hst as [? [=]]
        | discriminate Hw'
        | injection Hw' as <-;
          first [destruct Hn; by eapply numeric_inl|done] ] ].
Qed.

(** Which calls the parts of the page can make. *)
Local Ltac piece :=
  unfold comment_calls, solver_calls, model_part, plot_part, presolve_calls,
    add_version_gadget, show_parameters;
  rewrite ?show_search_plot_cases;
  repeat case_match; reflexivity.

Lemma no_error_comment_calls cs : existsb is_error (comment_calls cs) = false.
Proof. piece. Qed.
Lemma no_error_solver_calls p : existsb is_error (solver_calls p) = false.
Proof. piece. Qed.
Lemma no_error_model_part p : existsb is_error (trace (model_part p)) = false.
Proof. piece. Qed.
Lemma no_error_plot_part p : existsb is_error (trace (plot_part p)) = false.
Proof. piece. Qed.
Lemma no_error_presolve_calls p : existsb is_error (presolve_calls p) = false.
Proof. piece. Qed.

Lemma no_plot_comment_calls cs : existsb is_plot (comment_calls cs) = false.
Proof. piece. Qed.
Lemma no_plot_solver_calls p : existsb is_plot (solver_calls p) = false.
Proof. piece. Qed.
Lemma no_plot_model_part p : existsb is_plot (trace (model_part p)) = false.
Proof. piece. Qed.
Lemma no_plot_presolve_calls p : existsb is_plot (presolve_calls p) = false.
Proof. piece. Qed.


Create Rewrite HintDb page.
#[local] Hint Rewrite existsb_app
  no_error_comment_calls no_error_solver_calls no_error_model_part
  no_error_plot_part no_error_presolve_calls
  no_plot_comment_calls no_plot_solver_calls no_plot_model_part
  no_plot_presolve_calls
  orb_false_r orb_false_l : page.

(** Looks for a kind of call through the page. *)
Local Ltac page_scan :=
  repeat (progress
    (cbn [existsb orb is_error is_plot]; autorewrite with page)).

(** A complete log, by the fields of the response. *)
Lemma complete_log_cases parser :
  complete_log parser <->
  match response_of parser !! "status" with
  | Some _ =>
      match response_of parser !! "walltime" with
      | Some w =>
          match Py.float_of_string w with
          | inl _ => True
          | inr _ => False
          end
      | None => True
      end ∧
      match response_of parser !! "objective" with
      | Some _ =>
          match response_of parser !! "best_bound" with
          | Some _ =>
              match except_ValueError
                      match get_block_of_type_or_none is_ResponseBlock parser
                      with
                      | Some b => get_gap b
                      | None => Ok None
                      end None with
              | Ok _ => True
              | Raise _ => False
              end
          | None => False
          end
      | None => False
      end
  | None => False
  end.
Proof.
  unfold complete_log, walltime_ok. rewrite gap_ok_catches.
  destruct (response_of parser !! "status") as [s|];
    [|split; [by intros [[? [=]] _]|done]].
  assert (Hwall :
    (∀ w, response_of parser !! "walltime" = Some w -> numeric w) <->
    match response_of parser !! "walltime" with
    | Some w =>
        match Py.float_of_string w with inl _ => True | inr _ => False end
    | None => True
    end).
  { destruct (response_of parser !! "walltime") as [w|]; [|done].
    destruct (Py.float_of_string w) as [t|e] eqn:Hf.
    - split; [done|]. intros _ ? [= <-]. by eapply numeric_inl.
    - split; [|done]. intros Hn. by eapply numeric_inr, Hn. }
  rewrite Hwall.
  destruct (response_of parser !! "objective") as [o|];
    [|split; [by intros (_ & _ & [? [=]] & _)|by intros [_ []]]].
  destruct (response_of parser !! "best_bound") as [bd|];
    [|split; [by intros (_ & _ & _ & [? [=]] & _)|by intros [_ []]]].
  destruct (except_ValueError _ _) as [gap|e].
  - split; [tauto|]. intros [Hw _]. repeat split; eauto.
  - split; [by intros (_ & _ & _ & _ & ? & [=])|by intros [_ []]].
Qed.

(** X5. The page shows the full report, all eleven metrics, exactly on a
    complete log: the response has a status, an objective and a best bound,
    its wall time (if any) is a number, and the gap accessor raises no
    [KeyError]. On such a log the page returns normally and shows no error
    box. *)
Theorem full_report_iff_complete (parser : LogParser) :
  (labels (trace (show_overview parser)) = report_labels <->
     complete_log parser) ∧
  (complete_log parser ->
     outcome (show_overview parser) = Ok tt ∧
     existsb is_error (trace (show_overview parser)) = false).
Proof.
  rewrite complete_log_cases.
  page_cases parser; page_labels; page_scan;
    cbn [labels metrics omap list_omap fmap list_fmap label plain app];
    unfold report_labels.
  all: split;
    [ split; [intros Heq; first [done|discriminate Heq]|tauto]
    | first [done|tauto] ].
Qed.







(** ** The chart, the presolve notice and the parameters on the page *)

Lemma plot_part_plots parser :
  existsb is_plot (trace (plot_part parser)) = true <->
  plot_eligible (response_of parser)
    (get_block_of_type_or_none is_SearchProgressBlock parser)
    (get_block_of_type_or_none is_InitialModelBlock parser).
Proof.
  unfold plot_part, plot_eligible, status_finished, is_optimization_model.
  rewrite show_search_plot_cases.
  destruct (response_of parser !! "status") as [s|];
    [|split; [done|by intros [(? & [=] & _) _]]].
  destruct (get_block_of_type_or_none is_SearchProgressBlock parser)
    as [sp|]; [|split; [done|by intros (_ & (? & [=] & _) & _)]].
  destruct (get_block_of_type_or_none is_InitialModelBlock parser)
    as [im|]; [|split; [done|by intros (_ & _ & (? & [=] & _))]].
  destruct (bool_decide (s ∈ _)) eqn:Hfin; cycle 1.
  { split; [done|]. intros ((? & [= <-] & Hs) & _).
    apply finished_status in Hs. congruence. }
  apply finished_status in Hfin.
  destruct (is_optimization im) eqn:Hopt; cycle 1.
  { split; [done|]. intros (_ & _ & (? & [= <-] & Ho)). congruence. }
  destruct (data_points sp) as [|pt pts] eqn:Hpts.
  - split; [done|]. intros (_ & (? & [= <-] & Hne) & _). congruence.
  - split; [intros _|done]. split; [by exists s|].
    split; [exists sp; by rewrite Hpts|by exists im].
Qed.

(** X8. On the page, the search chart is drawn exactly when the log is
    complete and the plot is eligible: a report that stops early never
    reaches the chart, whatever the search data. *)
Theorem page_chart_iff (parser : LogParser) :
  existsb is_plot (trace (show_overview parser)) = true <->
  complete_log parser ∧
  plot_eligible (response_of parser)
    (get_block_of_type_or_none is_SearchProgressBlock parser)
    (get_block_of_type_or_none is_InitialModelBlock parser).
Proof.
  rewrite complete_log_cases, <- plot_part_plots.
  page_cases parser; page_scan.
  all: first [tauto|split; [intros [=]|tauto]].
Qed.

Lemma info_calls_app tr1 tr2 :
  info_calls (tr1 ++ tr2) = info_calls tr1 ++ info_calls tr2.
Proof. apply omap_app. Qed.

Lemma info_calls_comment_calls cs : info_calls (comment_calls cs) = [].
Proof. piece. Qed.
Lemma info_calls_solver_calls p : info_calls (solver_calls p) = [].
Proof. piece. Qed.
Lemma info_calls_model_part p : info_calls (trace (model_part p)) = [].
Proof. piece. Qed.
Lemma info_calls_plot_part p : info_calls (trace (plot_part p)) = [].
Proof. piece. Qed.

Lemma info_calls_presolve_calls parser :
  ((∃ b, get_block_of_type_or_none is_PresolveSummaryBlock parser = Some b ∧
         is_solved_by_presolve b = true) ->
   info_calls (presolve_calls parser)
   = ["The model was solved by presolve."]) ∧
  (¬ (∃ b, get_block_of_type_or_none is_PresolveSummaryBlock parser = Some b ∧
           is_solved_by_presolve b = true) ->
   info_calls (presolve_calls parser) = []).
Proof.
  unfold presolve_calls.
  destruct (get_block_of_type_or_none is_PresolveSummaryBlock parser)
    as [b|]; [|split; [by intros (? & [=] & _)|done]].
  destruct (is_solved_by_presolve b) eqn:Hb.
  - split; [done|]. intros Hno. destruct Hno. by exists b.
  - split; [|done]. intros (? & [= <-] & ?). congruence.
Qed.

(** X9. The only notice of the page is "The model was solved by presolve.".
    It is shown, once, exactly when the log is complete and has a presolve
    summary that says so; a report that stops early, or a log without such a
    summary, shows no notice at all. *)
Theorem presolve_notice_iff (parser : LogParser) :
  let solved :=
    ∃ b, get_block_of_type_or_none is_PresolveSummaryBlock parser = Some b ∧
         is_solved_by_presolve b = true in
  (complete_log parser ∧ solved ->
     info_calls (trace (show_overview parser))
     = ["The model was solved by presolve."]) ∧
  (¬ (complete_log parser ∧ solved) ->
     info_calls (trace (show_overview parser)) = []).
Proof.
  cbv zeta. rewrite complete_log_cases.
  destruct (info_calls_presolve_calls parser) as [Hyes Hno].
  page_cases parser.
  all: change (Subheader "Overview" true :: ?l)
         with ([Subheader "Overview" true] ++ l);
    rewrite !info_calls_app, ?info_calls_comment_calls,
      ?info_calls_solver_calls, ?info_calls_model_part,
      ?info_calls_plot_part;
    cbn [info_calls omap list_omap app]; rewrite ?app_nil_r.
  all: split; [intros [Hc Hs]|intros Hn];
    first [tauto|done|by apply Hyes|apply Hno; tauto].
Qed.

Lemma json_calls_app tr1 tr2 :
  json_calls (tr1 ++ tr2) = json_calls tr1 ++ json_calls tr2.
Proof. apply omap_app. Qed.

Lemma json_calls_comment_calls cs : json_calls (comment_calls cs) = [].
Proof. piece. Qed.
Lemma json_calls_model_part p : json_calls (trace (model_part p)) = [].
Proof. piece. Qed.
Lemma json_calls_plot_part p : json_calls (trace (plot_part p)) = [].
Proof. piece. Qed.
Lemma json_calls_presolve_calls p : json_calls (presolve_calls p) = [].
Proof. piece. Qed.

Lemma json_calls_solver_calls parser :
  json_calls (solver_calls parser) =
  match get_block_of_type_or_none is_SolverBlock parser with
  | Some b =>
      if bool_decide (get_parameters b ≠ ∅) then [get_parameters b] else []
  | None => []
  end.
Proof. piece. Qed.

(** X10. The solver parameters are shown as JSON on every page whose log has
    a solver block with a non-empty parameter mapping, exactly once and
    unchanged, whether or not the report stops later; no other JSON is
    shown. *)
Theorem parameters_shown (parser : LogParser) :
  json_calls (trace (show_overview parser)) =
  match get_block_of_type_or_none is_SolverBlock parser with
  | Some b =>
      if bool_decide (get_parameters b ≠ ∅) then [get_parameters b] else []
  | None => []
  end.
Proof.
  rewrite <- json_calls_solver_calls.
  page_cases parser.
  all: change (Subheader "Overview" true :: ?l)
         with ([Subheader "Overview" true] ++ l);
    rewrite !json_calls_app, ?json_calls_comment_calls,
      ?json_calls_model_part, ?json_calls_plot_part,
      ?json_calls_presolve_calls;
    cbn [json_calls omap list_omap app]; by rewrite ?app_nil_r.
Qed.

(** ** What the metrics show *)

Lemma all_digits_app a b :
  all_digits (a +:+ b) = all_digits a && all_digits b.
Proof.
  induction a as [|x a IH]; [done|].
  change (Py.is_digit x && all_digits (a +:+ b)
          = Py.is_digit x && all_digits a && all_digits b).
  by rewrite IH, andb_assoc.
Qed.

Lemma length_append a b :
  String.length (a +:+ b) = (String.length a + String.length b)%nat.
Proof.
  induction a as [|x a IH]; [done|].
  change (S (String.length (a +:+ b))
          = S (String.length a + String.length b)). by rewrite IH.
Qed.

Lemma frac_digits_shape prec q :
  all_digits (Py.frac_digits prec q) = true ∧
  String.length (Py.frac_digits prec q) = prec.
Proof.
  revert q. induction prec as [|p IH]; intros q; [done|].
  cbn [Py.frac_digits]. destruct (IH (q / 10)) as [Hd Hl].
  rewrite all_digits_app, length_append, Hd, Hl. split; [|cbn; lia].
  cbn [all_digits andb]. rewrite andb_true_r.
  apply digit_char_is_digit, Z.mod_pos_bound. lia.
Qed.

(** A finite float in [.<prec>f] format, for a positive [prec]. *)
Lemma format_f_fixed_point prec neg m e :
  fixed_point (S prec) (Py.format_f (S prec) (Py.Fin neg m e)).
Proof.
  unfold Py.format_f. set (q := if 0 <=? e then _ else _).
  set (scale := 10 ^ Z.of_nat (S prec)).
  destruct (int_digits_shape (q / scale)) as [Hne Hdig].
  destruct (frac_digits_shape (S prec) (q mod scale)) as [Hfd Hfl].
  exists (if neg then "-" else ""), (Py.int_digits (q / scale)),
    (Py.frac_digits (S prec) (q mod scale)).
  split; [done|]. split; [by destruct neg; auto|done].
Qed.

Lemma metric_value_app_l l tr1 tr2 v :
  metric_value l tr1 = Some v -> metric_value l (tr1 ++ tr2) = Some v.
Proof.
  unfold metric_value, metrics. rewrite omap_app, filter_app.
  by destruct (filter _ (omap _ tr1)).
Qed.

Lemma metric_value_app_r l tr1 tr2 :
  l ∉ labels tr1 -> metric_value l (tr1 ++ tr2) = metric_value l tr2.
Proof.
  intros Hl. unfold metric_value, metrics. rewrite omap_app, filter_app.
  destruct (filter _ (omap _ tr1)) as [|m ms] eqn:Hfil; [done|].
  exfalso. apply Hl.
  assert (Hm : m ∈ filter (fun m => label m = l)
                     (omap (fun c => match c with
                                     | Metric _ m => Some m
                                     | _ => None
                                     end) tr1))
    by (rewrite Hfil; apply list_elem_of_here).
  apply list_elem_of_filter in Hm as [<- Hm].
  by apply list_elem_of_fmap_2.
Qed.

(** X11. [show_model_metrics] always returns and draws the three metrics
    Variables, Constraints and Type: all three show [None] without an initial
    model block; with one, the counts are passed through and Type reads
    Optimization or Satisfaction by the block's flag. *)
Theorem model_metrics_values (st_ : container)
    (imb : option InitialModelBlock) :
  let run := show_model_metrics st_ imb in
  outcome run = Ok tt ∧
  labels (trace run) = ["Variables"; "Constraints"; "Type"] ∧
  (imb = None ->
     Forall (fun m => value m = Py.VNone) (metrics (trace run))) ∧
  (∀ b, imb = Some b ->
     value <$> metrics (trace run) =
     [get_num_variables b; get_num_constraints b;
      Py.VStr (if is_optimization b then "Optimization" else "Satisfaction")]
     ∧ (metric_value "Type" (trace run) = Some (Py.VStr "Optimization") <->
        is_optimization b = true)).
Proof.
  cbv zeta. split; [done|]. split; [done|]. split.
  - intros ->.
    repeat (apply List.Forall_cons; [reflexivity|]). apply List.Forall_nil.
  - intros b ->. split; [reflexivity|].
    change (metric_value "Type" (trace (show_model_metrics st_ (Some b))))
      with (Some (Py.VStr (if is_optimization b then "Optimization"
                           else "Satisfaction"))).
    destruct (is_optimization b); split; intros H;
      first [reflexivity|discriminate H].
Qed.

(** X12. With a status in the response, the Time metric shows [None] when the
    wall time is missing, and the wall time in [.3f] format followed by [s]
    when it is a number (three decimals for a finite one); it is not drawn
    when the wall time is not a number. *)
Theorem time_metric_value (st_ : container) (response : gmap string string)
    (spb : option SearchProgressBlock) (s : string) :
  response !! "status" = Some s ->
  let shown :=
    metric_value "Time" (trace (show_status_metrics st_ response spb)) in
  (response !! "walltime" = None -> shown = Some Py.VNone) ∧
  (∀ w t, response !! "walltime" = Some w ->
     Py.float_of_string w = inl t ->
     shown = Some (Py.VStr (Py.format_f 3 t +:+ "s")) ∧
     ∀ neg m e, t = Py.Fin neg m e -> fixed_point 3 (Py.format_f 3 t)) ∧
  (∀ w, response !! "walltime" = Some w -> ¬ numeric w -> shown = None).
Proof.
  intros Hs. cbv zeta. rewrite show_status_metrics_cases, Hs. cbv zeta.
  split; [by intros ->|]. split.
  - intros w t -> ->. split; [done|]. intros neg m e ->.
    apply format_f_fixed_point.
  - intros w -> Hn. destruct (Py.float_of_string w) as [t|e] eqn:Hf; [|done].
    destruct Hn. by exists t.
Qed.

Lemma time_metric_value_witness :
  let response : gmap string string :=
    {[ "status" := "OPTIMAL"; "walltime" := "1.5" ]} in
  let shown :=
    metric_value "Time" (trace (show_status_metrics Page response None)) in
  (response !! "walltime" = None -> shown = Some Py.VNone) ∧
  (∀ w t, response !! "walltime" = Some w ->
     Py.float_of_string w = inl t ->
     shown = Some (Py.VStr (Py.format_f 3 t +:+ "s")) ∧
     ∀ neg m e, t = Py.Fin neg m e -> fixed_point 3 (Py.format_f 3 t)) ∧
  (∀ w, response !! "walltime" = Some w -> ¬ numeric w -> shown = None).
Proof.
  apply (time_metric_value Page
           {[ "status" := "OPTIMAL"; "walltime" := "1.5" ]} None "OPTIMAL").
  vm_compute. reflexivity.
Defined.

(** X13. Whenever [show_status_metrics] returns, the Presolve metric shows
    [None] without a search progress block and the block's presolve time in
    [.3f] format followed by [s] with one (three decimals for a finite
    time). *)
Theorem presolve_metric_value (st_ : container)
    (response : gmap string string) (spb : option SearchProgressBlock) :
  outcome (show_status_metrics st_ response spb) = Ok tt ->
  let shown :=
    metric_value "Presolve" (trace (show_status_metrics st_ response spb)) in
  (spb = None -> shown = Some Py.VNone) ∧
  (∀ b, spb = Some b ->
     shown = Some (Py.VStr (Py.format_f 3 (get_presolve_time b) +:+ "s")) ∧
     ∀ neg m e, get_presolve_time b = Py.Fin neg m e ->
       fixed_point 3 (Py.format_f 3 (get_presolve_time b))).
Proof.
  cbv zeta. rewrite show_status_metrics_cases. cbv zeta.
  assert (Hfix : ∀ b neg m e, get_presolve_time b = Py.Fin neg m e ->
    fixed_point 3 (Py.format_f 3 (get_presolve_time b))).
  { intros b neg m e ->. apply format_f_fixed_point. }
  destruct (response !! "status") as [s|]; [|done].
  destruct (response !! "walltime") as [w|];
    [destruct (Py.float_of_string w) as [t|e]; [|done]|];
    intros _; (split; [by intros ->|intros b ->; split; [done|apply Hfix]]).
Qed.

Lemma presolve_metric_value_witness :
  let response : gmap string string := {[ "status" := "OPTIMAL" ]} in
  let spb := Some progress_one_point in
  let shown :=
    metric_value "Presolve" (trace (show_status_metrics Page response spb)) in
  (spb = None -> shown = Some Py.VNone) ∧
  (∀ b, spb = Some b ->
     shown = Some (Py.VStr (Py.format_f 3 (get_presolve_time b) +:+ "s")) ∧
     ∀ neg m e, get_presolve_time b = Py.Fin neg m e ->
       fixed_point 3 (Py.format_f 3 (get_presolve_time b))).
Proof.
  apply (presolve_metric_value Page {[ "status" := "OPTIMAL" ]}
           (Some progress_one_point)).
  vm_compute. reflexivity.
Defined.

(** X14. With an objective and a best bound in the response, each of the two
    metrics shows the float of its own field, or [None] exactly when the
    field is not a number; neither depends on the other field or on the gap
    accessor. *)
Theorem objective_and_bound_values (st_ : container)
    (response : gmap string string) (rb : option ResponseBlock)
    (o bd : string) :
  response !! "objective" = Some o ->
  response !! "best_bound" = Some bd ->
  let run := show_objective_metrics st_ response rb in
  metric_value "Objective" (trace run) = Some (field_value o) ∧
  metric_value "Best bound" (trace run) = Some (field_value bd) ∧
  (∀ text, field_value text = Py.VNone <-> ¬ numeric text) ∧
  (∀ text f, Py.float_of_string text = inl f ->
     field_value text = Py.VFloat f).
Proof.
  intros Ho Hb. cbv zeta. rewrite show_objective_metrics_cases, Ho, Hb.
  cbv zeta. split; [by destruct (except_ValueError _ _)|].
  split; [by destruct (except_ValueError _ _)|]. split.
  - intros text. unfold field_value, numeric.
    destruct (Py.float_of_string text) as [f|e].
    + split; [done|]. intros Hn. destruct Hn. by exists f.
    + split; [|done]. by intros _ [? [=]].
  - intros text f Hf. unfold field_value. by rewrite Hf.
Qed.

Lemma objective_and_bound_values_witness :
  let response := to_dict response_inf_objective in
  let run := show_objective_metrics Page response None in
  metric_value "Objective" (trace run) = Some (field_value "inf") ∧
  metric_value "Best bound" (trace run) = Some (field_value "10") ∧
  (∀ text, field_value text = Py.VNone <-> ¬ numeric text) ∧
  (∀ text f, Py.float_of_string text = inl f ->
     field_value text = Py.VFloat f).
Proof.
  apply (objective_and_bound_values Page (to_dict response_inf_objective)
           None "inf" "10").
  - vm_compute. reflexivity.
  - vm_compute. reflexivity.
Defined.

Lemma metric_value_solver_calls parser :
  metric_value "CP-SAT Version" (solver_calls parser) =
    Some match get_block_of_type_or_none is_SolverBlock parser with
         | Some b => Py.VStr (get_version b)
         | None => Py.VStr "N/A"
         end ∧
  metric_value "Number of workers" (solver_calls parser) =
    Some match get_block_of_type_or_none is_SolverBlock parser with
         | Some b => get_number_of_workers b
         | None => Py.VNone
         end.
Proof.
  unfold solver_calls, add_version_gadget, show_parameters.
  repeat case_match; by split.
Qed.

Lemma metric_value_in_solver l cs parser body rest v :
  metric_value l (solver_calls parser) = Some v ->
  metric_value l
    (Subheader "Overview" true :: comment_calls cs ++
       (solver_calls parser ++ body) ++ rest) = Some v.
Proof.
  intros Hv.
  change (Subheader "Overview" true :: ?t)
    with ([Subheader "Overview" true] ++ t).
  rewrite metric_value_app_r by (cbn; apply not_elem_of_nil).
  rewrite metric_value_app_r
    by (rewrite labels_comment_calls; apply not_elem_of_nil).
  by apply metric_value_app_l, metric_value_app_l.
Qed.

Lemma metric_value_after_solver l cs parser body rest :
  l ≠ "CP-SAT Version" -> l ≠ "Number of workers" ->
  metric_value l
    (Subheader "Overview" true :: comment_calls cs ++
       (solver_calls parser ++ body) ++ rest)
  = metric_value l (body ++ rest).
Proof.
  intros H1 H2.
  change (Subheader "Overview" true :: ?t)
    with ([Subheader "Overview" true] ++ t).
  rewrite metric_value_app_r by (cbn; apply not_elem_of_nil).
  rewrite metric_value_app_r
    by (rewrite labels_comment_calls; apply not_elem_of_nil).
  rewrite <- app_assoc. apply metric_value_app_r.
  rewrite labels_solver_calls, !elem_of_cons, elem_of_nil.
  by intros [?|[?|[]]].
Qed.

(** X15. The two solver metrics are on every page, whatever the response
    holds and wherever the report stops: the version shows the block's
    version text or "N/A", the worker count the block's count or [None]. *)
Theorem solver_metrics_on_every_page (parser : LogParser) :
  metric_value "CP-SAT Version" (trace (show_overview parser)) =
    Some match get_block_of_type_or_none is_SolverBlock parser with
         | Some b => Py.VStr (get_version b)
         | None => Py.VStr "N/A"
         end ∧
  metric_value "Number of workers" (trace (show_overview parser)) =
    Some match get_block_of_type_or_none is_SolverBlock parser with
         | Some b => get_number_of_workers b
         | None => Py.VNone
         end.
Proof.
  destruct (metric_value_solver_calls parser) as [Hv Hw].
  page_cases parser; split; by apply metric_value_in_solver.
Qed.

(** X16. The Status metric shows the status text of the response as it is,
    whatever the text, on every page whose response has a status: also when
    the report stops later, or the wall time error leaves the page. *)
Theorem status_shown_as_is (parser : LogParser) (s : string) :
  response_of parser !! "status" = Some s ->
  metric_value "Status" (trace (show_overview parser)) = Some (Py.VStr s).
Proof.
  page_cases parser; intros [= <-];
    by rewrite metric_value_after_solver.
Qed.

Lemma status_shown_as_is_witness :
  metric_value "Status" (trace (show_overview log_bad_walltime))
  = Some (Py.VStr "OPTIMAL").
Proof.
  apply (status_shown_as_is log_bad_walltime "OPTIMAL").
  vm_compute. reflexivity.
Defined.

(** ** More on the comment text *)

Lemma plain_text_app a b :
  plain_text (a +:+ b) = plain_text a && plain_text b.
Proof.
  induction a as [|x a IH]; [done|].
  change (plain_char x && plain_text (a +:+ b)
          = plain_char x && plain_text a && plain_text b).
  by rewrite IH, andb_assoc.
Qed.

Lemma plain_text_join cs :
  Forall (fun c => plain_text c = true) cs ->
  plain_text (String.concat newline cs) = true.
Proof.
  induction 1 as [|c cs Hc Hcs IH]; [done|].
  destruct cs as [|c' cs]; [done|].
  change (plain_text (c +:+ newline +:+ String.concat newline (c' :: cs))
          = true).
  by rewrite !plain_text_app, Hc, IH.
Qed.

Lemma plain_text_displayed s :
  plain_text s = true ->
  concat_map escape_bracket (concat_map delete_backslash s) = s.
Proof.
  induction s as [|x s IH]; [done|].
  cbn [plain_text]. intros [Hx Hs]%andb_true_iff.
  cbn [concat_map]. rewrite concat_map_app, (IH Hs).
  unfold plain_char in Hx. apply negb_true_iff in Hx.
  apply orb_false_iff in Hx as [Hx H3]. apply orb_false_iff in Hx as [H1 H2].
  unfold delete_backslash. rewrite H1. cbn [concat_map].
  unfold escape_bracket. by rewrite H2, H3.
Qed.

(** X17. Comments without backslash and without square bracket are shown as
    they are, joined by newlines. *)
Theorem plain_comments_unchanged (cs : list string) :
  Forall (fun c => plain_text c = true) cs ->
  comment_text cs = String.concat newline cs.
Proof.
  intros Hcs. rewrite comment_text_displayed. unfold displayed_comment.
  by apply plain_text_displayed, plain_text_join.
Qed.

Lemma plain_comments_unchanged_witness :
  comment_text ["solved in 3 s"; "second run"]
  = String.concat newline ["solved in 3 s"; "second run"].
Proof.
  apply (plain_comments_unchanged ["solved in 3 s"; "second run"]).
  repeat (apply List.Forall_cons; [reflexivity|]). apply List.Forall_nil.
Defined.

(** X18. The comment text is made line by line: it is the newline-join of
    the texts of the single comments, so what one comment holds never
    changes how another one is shown. *)
Theorem comment_text_by_line (cs : list string) :
  comment_text cs =
  String.concat newline ((fun c => comment_text [c]) <$> cs).
Proof.
  rewrite comment_text_displayed.
  assert (Hone : ∀ c, comment_text [c] =
    concat_map escape_bracket (concat_map delete_backslash c)).
  { intros c. by rewrite comment_text_displayed. }
  unfold displayed_comment.
  induction cs as [|c cs IH]; [done|].
  destruct cs as [|c' cs]; [exact (eq_sym (Hone c))|].
  change (String.concat newline (c :: c' :: cs))
    with (c +:+ newline +:+ String.concat newline (c' :: cs)).
  rewrite !concat_map_app, IH. cbn [fmap list_fmap].
  change (String.concat newline (comment_text [c] :: ?l))
    with (comment_text [c] +:+ newline +:+ String.concat newline l).
  by rewrite (Hone c).
Qed.
